(** * Audio analysis tool handler: format detection, payload loading and
      the model fallback chain

    Shallow embedding of [src/tool-handlers/analyze-audio.ts].

    - Pure helpers ([normalizePath], [detectAudioFormat]) are Rocq functions.
    - The asynchronous functions ([fetchAudio], [findSuitableFreeAudioModel],
      [handleAnalyzeAudio]) live in a small monad [M] that records, in order,
      every call made to an external collaborator and ends either with a
      value (the promise resolves) or with a thrown value (it rejects).
      Every collaborator call is awaited in the source, so one call is over
      before the next one is issued: the recorded sequence is a list.
      Diagnostic logging to stderr is not recorded.
    - Library functions the handler relies on (WHATWG URL parsing, Node's
      [path] module, [String.prototype.toLowerCase], base64 and JSON
      serialisation) are fields of a [Platform]; what the outside world
      answers (HTTP, file system, the inference API, the environment) is a
      [World]. Theorems hold for every platform and every world. *)

From Stdlib Require Import List String Ascii ZArith Lia Bool.
From Stdlib.Strings Require Import Byte.
Import ListNotations.
Local Open Scope string_scope.

(* ===================================================================== *)
(** ** JavaScript values the handler manipulates *)
(* ===================================================================== *)

(** A Node [Buffer] is a sequence of bytes. *)
Definition Buffer := list byte.

Definition byte_value (b : byte) : Z := Z.of_N (Byte.to_N b).

(** [buffer[i]]: the byte at index [i], or [undefined] ([None]) when [i] is
    outside the buffer. *)
Definition index (buffer : Buffer) (i : nat) : option byte := nth_error buffer i.

(** [v === n] for [v] a byte or [undefined] and [n] a number literal. *)
Definition strict_eq_num (v : option byte) (n : Z) : bool :=
  match v with
  | Some b => Z.eqb (byte_value b) n
  | None => false
  end.

(** [v & n]: [undefined] is converted to [0] by the bitwise operator. *)
Definition bit_and (v : option byte) (n : Z) : Z :=
  match v with
  | Some b => Z.land (byte_value b) n
  | None => Z.land 0 n
  end.

(** [a || b] where [a] may be [undefined] or empty. *)
Definition or_else (a : option string) (b : string) : string :=
  match a with
  | Some v => if v =? "" then b else v
  | None => b
  end.

(** [s.includes(sub)]. *)
Fixpoint includes (s sub : string) : bool :=
  if String.prefix sub s then true
  else match s with
       | EmptyString => false
       | String _ rest => includes rest sub
       end.

(** JSON documents handed to [JSON.stringify]. *)
#[warnings="-register-all"]
Inductive json : Type :=
| JString (s : string)
| JNumber (n : Z)
| JObject (fields : list (string * json)).

(** A value thrown by a collaborator (node-fetch, fs, the OpenAI client) or
    by the JavaScript runtime: an [Error] instance with its [message], or
    any other value with its [String(...)] rendering. None of them is an
    [McpError]: that class belongs to the MCP SDK and is only constructed by
    the handler's own validation guard. *)
Inductive failure : Type :=
| ErrorObject (message : string)
| OtherValue (rendering : string).

Inductive ErrorCode : Type := InvalidParams.

(** Everything that can travel through a [throw] in the handler. *)
Inductive thrown : Type :=
| McpError (code : ErrorCode) (message : string)
| Raised (f : failure).

Inductive result (E A : Type) : Type :=
| Ok (a : A)
| Err (e : E).
Arguments Ok {E A} a.
Arguments Err {E A} e.

(* ===================================================================== *)
(** ** Library functions and the outside world *)
(* ===================================================================== *)

Record Platform : Type := {
  (** [new URL(s)] returns instead of throwing *)
  URL_parses : string -> bool;
  path_isAbsolute : string -> bool;
  path_resolve : string -> string -> string;
  path_extname : string -> string;
  toLowerCase : string -> string;
  (** [buffer.toString('base64')] *)
  toString_base64 : Buffer -> string;
  JSON_stringify : json -> string
}.

(** The [Response] of node-fetch; [ok] is derived from the status. *)
Record Response : Type := {
  status : Z;
  statusText : string;
  arrayBuffer : result failure Buffer
}.

Definition ok (r : Response) : bool :=
  (200 <=? status r)%Z && (status r <? 300)%Z.

Module Model.
Record t : Type := { id : string }.
End Model.

Module Choice.
(** [message.content] is [string | null]. *)
Record t : Type := { message_content : option string }.
End Choice.

Module Completion.
Record t : Type := {
  id : string;
  choices : list Choice.t;
  model : string;
  usage : option json
}.
End Completion.

(** One part of the user message sent with every completion request. *)
Inductive content_part : Type :=
| text_part (text : string)
| input_audio_part (data : string) (format : string).

Record World : Type := {
  cwd : string;
  (** [process.env.OPENROUTER_DEFAULT_MODEL_AUDIO_BACKUP] *)
  OPENROUTER_DEFAULT_MODEL_AUDIO_BACKUP : option string;
  (** [fetch(url)] *)
  fetch : string -> result failure Response;
  (** [fs.readFile(path)] *)
  readFile : string -> result failure Buffer;
  (** [openai.models.list()]; [Ok None] is a response without [data] *)
  models_list : result failure (option (list Model.t));
  (** [openai.chat.completions.create({model, messages})] *)
  chat_completions_create : string -> list content_part -> result failure Completion.t
}.

(* ===================================================================== *)
(** ** The monad of collaborator calls *)
(* ===================================================================== *)

Inductive event : Type :=
| EvFetch (url : string)
| EvReadFile (path : string)
| EvModelsList
| EvCreate (model : string) (content : list content_part).

(** The calls made so far, oldest first, and how the computation ended. *)
Definition M (A : Type) : Type := (list event * result thrown A)%type.

Definition ret {A} (a : A) : M A := ([], Ok a).

Definition throw {A} (e : thrown) : M A := ([], Err e).

Definition bind {A B} (m : M A) (k : A -> M B) : M B :=
  match m with
  | (t, Ok a) => let (t', r) := k a in ((t ++ t')%list, r)
  | (t, Err e) => (t, Err e)
  end.

(** [try { m } catch (e) { handler e }] *)
Definition try_catch {A} (m : M A) (handler : thrown -> M A) : M A :=
  match m with
  | (t, Err e) => let (t', r) := handler e in ((t ++ t')%list, r)
  | (t, Ok a) => (t, Ok a)
  end.

(** Await a collaborator: record the call, then resolve or reject with what
    the world answered. *)
Definition await {A} (ev : event) (answer : result failure A) : M A :=
  ([ev], match answer with
         | Ok a => Ok a
         | Err f => Err (Raised f)
         end).

Declare Scope handler_scope.
Delimit Scope handler_scope with handler.
Notation "x <- m ;; k" := (bind m (fun x => k))
  (at level 100, m at next level, right associativity) : handler_scope.
Local Open Scope handler_scope.

Definition trace {A} (m : M A) : list event := fst m.
Definition outcome {A} (m : M A) : result thrown A := snd m.

(* ===================================================================== *)
(** ** The source, function by function *)
(* ===================================================================== *)

Definition DEFAULT_AUDIO_MODEL : string := "mistralai/voxtral-small-24b-2507".

(** The tool arguments. [audio_url] is declared required, but the handler
    checks for its absence, so it is optional here. *)
Module Request.
Record t : Type := {
  audio_url : option string;
  model : option string
}.
End Request.

(** What the handler returns to the protocol layer. *)
Record TextContent : Type := {
  type : string;
  text : string
}.

Record CallToolResult : Type := {
  content : list TextContent;
  (** absent on success *)
  isError : option bool
}.

(** [filePath.replace(/\\/g, '/')] *)
Fixpoint normalizePath (filePath : string) : string :=
  match filePath with
  | EmptyString => EmptyString
  | String c rest =>
      String (if Ascii.eqb c "\"%char then "/"%char else c) (normalizePath rest)
  end.

Section Handler.

Context (P : Platform) (w : World).

Definition isUrl (path : string) : bool := URL_parses P path.

Definition fetchAudio (audioPath : string) : M Buffer :=
  if isUrl audioPath then
    response <- await (EvFetch audioPath) (fetch w audioPath) ;;
    if negb (ok response) then
      throw (Raised (ErrorObject ("Failed to fetch audio: " ++ statusText response)))
    else
      (* the body belongs to the same HTTP exchange: no further call *)
      match arrayBuffer response with
      | Ok arrayBuffer => ret arrayBuffer
      | Err f => throw (Raised f)
      end
  else
    let normalizedPath := normalizePath audioPath in
    let resolvedPath :=
      if negb (path_isAbsolute P normalizedPath)
      then path_resolve P (cwd w) normalizedPath
      else normalizedPath in
    await (EvReadFile resolvedPath) (readFile w resolvedPath).

Definition detectAudioFormat (buffer : Buffer) (filename : string) : string :=
  if strict_eq_num (index buffer 0) 0x52 && strict_eq_num (index buffer 1) 0x49
     && strict_eq_num (index buffer 2) 0x46 && strict_eq_num (index buffer 3) 0x46
  then "wav"
  else if strict_eq_num (index buffer 0) 0xFF
          && Z.eqb (bit_and (index buffer 1) 0xE0) 0xE0
  then "mp3"
  else
    let ext := toLowerCase P (path_extname P filename) in
    if ext =? ".wav" then "wav"
    else if ext =? ".mp3" then "mp3"
    else "wav".

Definition findSuitableFreeAudioModel : M string :=
  let fallbackModel :=
    or_else (OPENROUTER_DEFAULT_MODEL_AUDIO_BACKUP w) DEFAULT_AUDIO_MODEL in
  try_catch
    (modelsResponse <- await EvModelsList (models_list w) ;;
     match modelsResponse with
     | None => ret fallbackModel
     | Some [] => ret fallbackModel
     | Some data =>
         let freeAudioModels :=
           map (fun model => {| Model.id := Model.id model |})
               (filter
                  (fun model =>
                     let modelId := toLowerCase P (Model.id model) in
                     includes modelId "free"
                     && (includes modelId "audio" || includes modelId "voxtral"
                         || includes modelId "whisper"))
                  data) in
         match freeAudioModels with
         | first :: _ => ret (Model.id first)
         | [] => ret fallbackModel
         end
     end)
    (fun error => ret fallbackModel).

(** The object returned on success: [completion.choices[0].message] is a
    property read on [undefined] when [choices] is empty, which throws a
    [TypeError]; a [usage] that is [undefined] is left out by
    [JSON.stringify]. *)
Definition success_result (completion : Completion.t) : M CallToolResult :=
  match Completion.choices completion with
  | [] =>
      throw (Raised (ErrorObject
               "Cannot read properties of undefined (reading 'message')"))
  | first :: _ =>
      ret {| content :=
               [ {| type := "text";
                    text := JSON_stringify P (JObject (
                      [ ("id", JString (Completion.id completion));
                        ("analysis", JString (or_else (Choice.message_content first) ""));
                        ("model", JString (Completion.model completion)) ]
                      ++ match Completion.usage completion with
                         | Some u => [ ("usage", u) ]
                         | None => []
                         end)) |} ];
             isError := None |}
  end.

(** One candidate: the [create] call followed by the [return] built from
    its completion. The source writes this block three times, once per
    candidate. *)
Definition attempt (model : string) (content : list content_part) : M CallToolResult :=
  completion <- await (EvCreate model content) (chat_completions_create w model content) ;;
  success_result completion.

(** [error instanceof Error ? error.message : String(error)] *)
Definition error_message (error : thrown) : string :=
  match error with
  | McpError _ message => message
  | Raised (ErrorObject message) => message
  | Raised (OtherValue rendering) => rendering
  end.

Definition handleAnalyzeAudio (request : Request.t)
                              (defaultModel : option string) : M CallToolResult :=
  try_catch
    (let args := request in
     match Request.audio_url args with
     | Some url =>
         if negb (url =? "") then
           buffer <- fetchAudio url ;;
           let format := detectAudioFormat buffer url in
           let base64 := toString_base64 P buffer in
           let content :=
             [ text_part "Please transcribe and provide me the raw content of this audio.";
               input_audio_part base64 format ] in
           let model := or_else (Request.model args) (or_else defaultModel DEFAULT_AUDIO_MODEL) in
           try_catch (attempt model content)
             (fun primaryError =>
                let backupModel := OPENROUTER_DEFAULT_MODEL_AUDIO_BACKUP w in
                (* the [else] branch: no backup to try *)
                let no_backup :=
                  freeModel <- findSuitableFreeAudioModel ;;
                  if negb (freeModel =? "") && negb (freeModel =? model)
                  then attempt freeModel content
                  else throw primaryError in
                match backupModel with
                | Some backup =>
                    if negb (backup =? "") && negb (backup =? model) then
                      try_catch (attempt backup content)
                        (fun backupError =>
                           freeModel <- findSuitableFreeAudioModel ;;
                           if negb (freeModel =? "") && negb (freeModel =? model)
                              && negb (freeModel =? backup)
                           then attempt freeModel content
                           else throw backupError)
                    else no_backup
                | None => no_backup
                end)
         else throw (McpError InvalidParams "audio_url parameter is required")
     | None => throw (McpError InvalidParams "audio_url parameter is required")
     end)
    (fun error =>
       match error with
       | McpError _ _ => throw error
       | Raised _ =>
           ret {| content :=
                    [ {| type := "text";
                         text := JSON_stringify P (JObject
                           [ ("error", JString (error_message error));
                             ("model", JString (or_else (Request.model request)
                                                 (or_else defaultModel DEFAULT_AUDIO_MODEL)));
                             ("usage", JObject [ ("prompt_tokens", JNumber 0);
                                                 ("completion_tokens", JNumber 0);
                                                 ("total_tokens", JNumber 0) ]) ]) |} ];
                  isError := Some true |}
       end).

End Handler.

(* ===================================================================== *)
(** ** Observing a run *)
(* ===================================================================== *)

(** The model identifiers sent to the completion API, in call order. *)
Fixpoint creates (t : list event) : list string :=
  match t with
  | [] => []
  | EvCreate model _ :: rest => model :: creates rest
  | _ :: rest => creates rest
  end.

Definition is_payload_fetch (e : event) : bool :=
  match e with
  | EvFetch _ | EvReadFile _ => true
  | _ => false
  end.

Definition is_listing (e : event) : bool :=
  match e with
  | EvModelsList => true
  | _ => false
  end.

Definition is_completion (e : event) : bool :=
  match e with
  | EvCreate _ _ => true
  | _ => false
  end.

Definition count (p : event -> bool) (t : list event) : nat :=
  List.length (filter p t).

(** The primary candidate: the request's model, else the caller's default,
    else the built-in default. *)
Definition primary_model (request : Request.t) (defaultModel : option string) : string :=
  or_else (Request.model request) (or_else defaultModel DEFAULT_AUDIO_MODEL).

(** The configured backup, when it is set to a non-empty string. *)
Definition configured_backup (w : World) : option string :=
  match OPENROUTER_DEFAULT_MODEL_AUDIO_BACKUP w with
  | Some backup => if backup =? "" then None else Some backup
  | None => None
  end.

(** The soft-failure envelope: an error result whose payload carries a
    message, a model identifier and zeroed usage counts. *)
Definition soft_failure (P : Platform) (message model : string) : CallToolResult :=
  {| content :=
       [ {| type := "text";
            text := JSON_stringify P (JObject
              [ ("error", JString message);
                ("model", JString model);
                ("usage", JObject [ ("prompt_tokens", JNumber 0);
                                    ("completion_tokens", JNumber 0);
                                    ("total_tokens", JNumber 0) ]) ]) |} ];
     isError := Some true |}.

Section Views.

Context (P : Platform) (w : World).

(** How one candidate's attempt ends, as a value. *)
Definition attempt_outcome (model : string) (content : list content_part)
  : result failure CallToolResult :=
  match outcome (attempt P w model content) with
  | Ok r => Ok r
  | Err (Raised f) => Err f
  | Err (McpError _ message) => Err (ErrorObject message)
  end.

(** How loading the payload ends, as a value. *)
Definition load_outcome (audioPath : string) : result failure Buffer :=
  match outcome (fetchAudio P w audioPath) with
  | Ok buffer => Ok buffer
  | Err (Raised f) => Err f
  | Err (McpError _ message) => Err (ErrorObject message)
  end.

(** What discovery answers. *)
Definition free_model : string :=
  match outcome (findSuitableFreeAudioModel P w) with
  | Ok model => model
  | Err _ => ""
  end.

(** The message content built from the loaded payload. *)
Definition message_content (buffer : Buffer) (url : string) : list content_part :=
  [ text_part "Please transcribe and provide me the raw content of this audio.";
    input_audio_part (toString_base64 P buffer) (detectAudioFormat P buffer url) ].

End Views.

Definition lift {A} (r : result failure A) : result thrown A :=
  match r with
  | Ok a => Ok a
  | Err f => Err (Raised f)
  end.

Definition failure_message (f : failure) : string :=
  match f with
  | ErrorObject message => message
  | OtherValue rendering => rendering
  end.

(** The last completion call of a run, with the content it carried. *)
Fixpoint last_attempt (t : list event) : option (string * list content_part) :=
  match t with
  | [] => None
  | EvCreate model content :: rest =>
      match last_attempt rest with
      | Some later => Some later
      | None => Some (model, content)
      end
  | _ :: rest => last_attempt rest
  end.

(** Suppress duplicates, keeping the first occurrence of each identifier. *)
Fixpoint dedupe (l : list string) : list string :=
  match l with
  | [] => []
  | x :: rest => x :: filter (fun y => negb (y =? x)) (dedupe rest)
  end.

(** The candidates of one invocation, in the order they are considered:
    primary, configured backup, discovered model. *)
Definition candidates (P : Platform) (w : World)
                      (request : Request.t) (defaultModel : option string) : list string :=
  primary_model request defaultModel
  :: match configured_backup w with
     | Some backup => [backup]
     | None => []
     end
  ++ [free_model P w].

(** Magic numbers, as the claims name them. *)
Definition starts_with_RIFF (buffer : Buffer) : bool :=
  match buffer with
  | x52 :: x49 :: x46 :: x46 :: _ => true
  | _ => false
  end.

Definition starts_with_MPEG_sync (buffer : Buffer) : bool :=
  match buffer with
  | xff :: second :: _ => Z.eqb (Z.land (byte_value second) 0xE0) 0xE0
  | _ => false
  end.

(** The model-listing call fails or returns no entries. *)
Definition listing_unavailable (w : World) : Prop :=
  (exists f, models_list w = Err f)
  \/ models_list w = Ok None
  \/ models_list w = Ok (Some []).

(** The reading of the free-model discovery under which an unavailable
    listing yields no candidate: only the primary and the configured backup
    are ever sent to the completion API. *)
Definition only_explicit_candidates_called
    (P : Platform) (w : World) (request : Request.t) (defaultModel : option string) : Prop :=
  listing_unavailable w ->
  forall m, In m (creates (trace (handleAnalyzeAudio P w request defaultModel))) ->
            m = primary_model request defaultModel \/ configured_backup w = Some m.

(** The short-circuit reading in which a resolved [create] call for the
    primary is enough for the handler to return at once. *)
Definition primary_call_success_short_circuits
    (P : Platform) (w : World) (request : Request.t) (defaultModel : option string) : Prop :=
  forall content completion,
    In (EvCreate (primary_model request defaultModel) content)
       (trace (handleAnalyzeAudio P w request defaultModel)) ->
    chat_completions_create w (primary_model request defaultModel) content = Ok completion ->
    creates (trace (handleAnalyzeAudio P w request defaultModel))
      = [primary_model request defaultModel]
    /\ count is_listing (trace (handleAnalyzeAudio P w request defaultModel)) = 0
    /\ exists r, outcome (handleAnalyzeAudio P w request defaultModel) = Ok r
                 /\ isError r = None.

(* ===================================================================== *)
(** ** The paths through the fallback chain *)
(* ===================================================================== *)

Section Paths.

Context (P : Platform) (w : World).

(** [chain primary content calls r]: starting from the primary candidate,
    the chain issues [calls] and ends with [r], the result of the last
    attempt made or the error kept from it. One constructor per path
    through the nested [try]/[catch] blocks. *)
Inductive chain (primary : string) (content : list content_part)
  : list event -> result failure CallToolResult -> Prop :=
| chain_primary r :
    attempt_outcome P w primary content = Ok r ->
    chain primary content [EvCreate primary content] (Ok r)
| chain_backup primaryError backup r :
    attempt_outcome P w primary content = Err primaryError ->
    configured_backup w = Some backup ->
    backup <> primary ->
    attempt_outcome P w backup content = Ok r ->
    chain primary content
          [EvCreate primary content; EvCreate backup content] (Ok r)
| chain_backup_free primaryError backup backupError :
    attempt_outcome P w primary content = Err primaryError ->
    configured_backup w = Some backup ->
    backup <> primary ->
    attempt_outcome P w backup content = Err backupError ->
    free_model P w <> "" ->
    free_model P w <> primary ->
    free_model P w <> backup ->
    chain primary content
          [EvCreate primary content; EvCreate backup content; EvModelsList;
           EvCreate (free_model P w) content]
          (attempt_outcome P w (free_model P w) content)
| chain_backup_exhausted primaryError backup backupError :
    attempt_outcome P w primary content = Err primaryError ->
    configured_backup w = Some backup ->
    backup <> primary ->
    attempt_outcome P w backup content = Err backupError ->
    free_model P w = "" \/ free_model P w = primary \/ free_model P w = backup ->
    chain primary content
          [EvCreate primary content; EvCreate backup content; EvModelsList]
          (Err backupError)
| chain_free primaryError :
    attempt_outcome P w primary content = Err primaryError ->
    configured_backup w = None \/ configured_backup w = Some primary ->
    free_model P w <> "" ->
    free_model P w <> primary ->
    chain primary content
          [EvCreate primary content; EvModelsList; EvCreate (free_model P w) content]
          (attempt_outcome P w (free_model P w) content)
| chain_exhausted primaryError :
    attempt_outcome P w primary content = Err primaryError ->
    configured_backup w = None \/ configured_backup w = Some primary ->
    free_model P w = "" \/ free_model P w = primary ->
    chain primary content [EvCreate primary content; EvModelsList] (Err primaryError).

(** What the outer [catch] makes of the chain's result. *)
Definition settle (primary : string) (r : result failure CallToolResult)
  : result thrown CallToolResult :=
  match r with
  | Ok envelope => Ok envelope
  | Err f => Ok (soft_failure P (failure_message f) primary)
  end.

(** The runs of the handler. *)
Inductive run (request : Request.t) (defaultModel : option string)
  : M CallToolResult -> Prop :=
| run_invalid :
    Request.audio_url request = None \/ Request.audio_url request = Some "" ->
    run request defaultModel
        ([], Err (McpError InvalidParams "audio_url parameter is required"))
| run_load_failed url ev f :
    Request.audio_url request = Some url ->
    url <> "" ->
    is_payload_fetch ev = true ->
    load_outcome P w url = Err f ->
    run request defaultModel
        ([ev], Ok (soft_failure P (failure_message f)
                                (primary_model request defaultModel)))
| run_chain url ev buffer calls r :
    Request.audio_url request = Some url ->
    url <> "" ->
    is_payload_fetch ev = true ->
    load_outcome P w url = Ok buffer ->
    chain (primary_model request defaultModel) (message_content P buffer url) calls r ->
    run request defaultModel
        (ev :: calls, settle (primary_model request defaultModel) r).

End Paths.

(* ===================================================================== *)
(** ** A concrete platform and concrete worlds, to run the handler *)
(* ===================================================================== *)

Module Sample.

Definition lower_ascii (c : ascii) : ascii :=
  let n := nat_of_ascii c in
  if (65 <=? n)%nat && (n <=? 90)%nat then ascii_of_nat (n + 32) else c.

Fixpoint lower (s : string) : string :=
  match s with
  | EmptyString => EmptyString
  | String c rest => String (lower_ascii c) (lower rest)
  end.

(** The text from the last dot on, or the empty string. *)
Fixpoint extension (s : string) : string :=
  match s with
  | EmptyString => EmptyString
  | String c rest =>
      match extension rest with
      | EmptyString => if Ascii.eqb c "."%char then s else EmptyString
      | found => found
      end
  end.

Definition alphabet : string :=
  "ABCDEFGHIJKLMNOPQRSTUVWXYZabcdefghijklmnopqrstuvwxyz0123456789+/".

Definition sextet (n : Z) : string :=
  match String.get (Z.to_nat (Z.land n 63)) alphabet with
  | Some c => String c EmptyString
  | None => EmptyString
  end.

Fixpoint base64 (buffer : Buffer) : string :=
  match buffer with
  | [] => EmptyString
  | [a] =>
      let n := Z.shiftl (byte_value a) 16 in
      sextet (Z.shiftr n 18) ++ sextet (Z.shiftr n 12) ++ "=="
  | [a; b] =>
      let n := Z.lor (Z.shiftl (byte_value a) 16) (Z.shiftl (byte_value b) 8) in
      sextet (Z.shiftr n 18) ++ sextet (Z.shiftr n 12) ++ sextet (Z.shiftr n 6) ++ "="
  | a :: b :: c :: rest =>
      let n := Z.lor (Z.lor (Z.shiftl (byte_value a) 16) (Z.shiftl (byte_value b) 8))
                     (byte_value c) in
      sextet (Z.shiftr n 18) ++ sextet (Z.shiftr n 12) ++ sextet (Z.shiftr n 6)
      ++ sextet n ++ base64 rest
  end.

Definition double_quote : ascii := ascii_of_nat 34.

Fixpoint escape (s : string) : string :=
  match s with
  | EmptyString => EmptyString
  | String c rest =>
      if Ascii.eqb c double_quote || Ascii.eqb c "\"%char
      then String "\"%char (String c (escape rest))
      else String c (escape rest)
  end.

Definition quote (s : string) : string :=
  String double_quote (escape s ++ String double_quote EmptyString).

Definition digit (n : Z) : string :=
  match String.get (Z.to_nat n) "0123456789" with
  | Some c => String c EmptyString
  | None => EmptyString
  end.

Fixpoint decimal (fuel : nat) (n : Z) : string :=
  match fuel with
  | O => digit (n mod 10)
  | S fuel' =>
      if (n <? 10)%Z then digit n
      else decimal fuel' (n / 10) ++ digit (n mod 10)
  end.

Definition number (n : Z) : string :=
  if (n <? 0)%Z then "-" ++ decimal 64 (- n) else decimal 64 n.

Fixpoint stringify (j : json) : string :=
  match j with
  | JString s => quote s
  | JNumber n => number n
  | JObject fields =>
      let fix members (l : list (string * json)) : string :=
        match l with
        | [] => EmptyString
        | [(k, v)] => quote k ++ ":" ++ stringify v
        | (k, v) :: more => quote k ++ ":" ++ stringify v ++ "," ++ members more
        end in
      "{" ++ members fields ++ "}"
  end.

Definition platform : Platform :=
  {| URL_parses := fun s => String.prefix "http://" s || String.prefix "https://" s;
     path_isAbsolute := fun s => String.prefix "/" s;
     path_resolve := fun base s => base ++ "/" ++ s;
     path_extname := extension;
     toLowerCase := lower;
     toString_base64 := base64;
     JSON_stringify := stringify |}.

(** A WAV header and the start of an MPEG audio frame. *)
Definition riff_bytes : Buffer := [x52; x49; x46; x46; x24; x08; x00; x00].
Definition mpeg_bytes : Buffer := [xff; xfb; x90; x00].

(** A world with one readable file of RIFF bytes, one reachable URL, and
    the given backup, listing and completion behaviour. *)
Definition world (backup : option string)
                 (listing : result failure (option (list Model.t)))
                 (create : string -> list content_part -> result failure Completion.t)
  : World :=
  {| cwd := "/srv/app";
     OPENROUTER_DEFAULT_MODEL_AUDIO_BACKUP := backup;
     fetch := fun url =>
       if url =? "https://example.com/clip.mp3"
       then Ok {| status := 200; statusText := "OK"; arrayBuffer := Ok mpeg_bytes |}
       else Ok {| status := 404; statusText := "Not Found"; arrayBuffer := Ok [] |};
     readFile := fun path =>
       if path =? "/srv/app/audio/clip.wav" then Ok riff_bytes
       else Err (ErrorObject ("ENOENT: no such file or directory, open '" ++ path ++ "'"));
     models_list := listing;
     chat_completions_create := create |}.

Definition listing_down : result failure (option (list Model.t)) :=
  Err (ErrorObject "503 Service Unavailable").

(** Every model is rate limited. *)
Definition every_model_fails (model : string) (content : list content_part)
  : result failure Completion.t :=
  Err (ErrorObject ("429 rate limited: " ++ model)).

(** Every model answers with one choice. *)
Definition every_model_answers (model : string) (content : list content_part)
  : result failure Completion.t :=
  Ok {| Completion.id := "gen-1";
        Completion.choices := [ {| Choice.message_content := Some "hello world" |} ];
        Completion.model := model;
        Completion.usage := Some (JObject [ ("prompt_tokens", JNumber 12);
                                            ("completion_tokens", JNumber 2);
                                            ("total_tokens", JNumber 14) ]) |}.

(** Every call resolves, but with a completion that has no choice. *)
Definition every_model_answers_without_choice (model : string) (content : list content_part)
  : result failure Completion.t :=
  Ok {| Completion.id := "gen-2";
        Completion.choices := [];
        Completion.model := model;
        Completion.usage := None |}.

Definition request (model : option string) : Request.t :=
  {| Request.audio_url := Some "audio\clip.wav"; Request.model := model |}.

End Sample.

(* ===================================================================== *)
(** ** Server start-up (the entry script) *)
(* ===================================================================== *)

(** The entry script reads an optional [--config=] argument, then builds the
    server: the constructor picks the API key and the default models and
    hands them to the tool handlers. Creating the SDK server, the transport
    and the signal handler is left to the libraries. The script also
    registers a listener on standard input, which can only run after the
    constructor call at the end of the script has returned; what the
    constructor sees is therefore what the arguments gave. *)
Module Startup.

Definition DEFAULT_MODEL : string := "qwen/qwen2.5-vl-32b-instruct".

Record ServerOptions : Type := {
  apiKey : option string;
  defaultModel : option string;
  defaultAudioModel : option string
}.

(** The environment variables the script reads. *)
Record Env : Type := {
  OPENROUTER_API_KEY : option string;
  OPENROUTER_DEFAULT_MODEL_IMG : option string;
  OPENROUTER_DEFAULT_MODEL_IMG_BACKUP : option string;
  OPENROUTER_DEFAULT_MODEL_AUDIO : option string;
  OPENROUTER_DEFAULT_MODEL_AUDIO_BACKUP : option string
}.

(** The properties the script reads from a loaded configuration. *)
Record ConfigData : Type := {
  config_OPENROUTER_API_KEY : option string;
  config_apiKey : option string;
  config_OPENROUTER_DEFAULT_MODEL : option string;
  config_defaultModel : option string
}.

(** What the constructor passes to [new ToolHandlers(...)]. *)
Record ToolHandlersArguments : Type := {
  handlers_apiKey : string;
  handlers_defaultModel : string;
  handlers_defaultAudioModel : string
}.

(** [a || b] where both sides may be [undefined]. *)
Definition or_undefined (a b : option string) : option string :=
  match a with
  | Some v => if v =? "" then b else Some v
  | None => b
  end.

(** [options?.field] *)
Definition optional {A} (options : option ServerOptions)
                    (field : ServerOptions -> option A) : option A :=
  match options with
  | Some o => field o
  | None => None
  end.

(** The constructor of [OpenRouterMultimodalServer]. *)
Definition constructor (env : Env) (options : option ServerOptions)
  : result failure ToolHandlersArguments :=
  let apiKey := or_undefined (optional options apiKey) (OPENROUTER_API_KEY env) in
  let defaultModel :=
    or_else (optional options defaultModel)
      (or_else (OPENROUTER_DEFAULT_MODEL_IMG env)
         (or_else (OPENROUTER_DEFAULT_MODEL_IMG_BACKUP env) DEFAULT_MODEL)) in
  let defaultAudioModel :=
    or_else (optional options defaultAudioModel)
      (or_else (OPENROUTER_DEFAULT_MODEL_AUDIO env)
         (or_else (OPENROUTER_DEFAULT_MODEL_AUDIO_BACKUP env) DEFAULT_AUDIO_MODEL)) in
  match apiKey with
  | Some key =>
      if key =? "" then
        Err (ErrorObject
               "OpenRouter API key is required. Provide it via options or OPENROUTER_API_KEY environment variable")
      else
        Ok {| handlers_apiKey := key;
              handlers_defaultModel := defaultModel;
              handlers_defaultAudioModel := defaultAudioModel |}
  | None =>
      Err (ErrorObject
             "OpenRouter API key is required. Provide it via options or OPENROUTER_API_KEY environment variable")
  end.

(** [s.split(sep)] for a one-character separator. *)
Fixpoint split (sep : ascii) (s : string) : list string :=
  match s with
  | EmptyString => [EmptyString]
  | String c rest =>
      if Ascii.eqb c sep then EmptyString :: split sep rest
      else match split sep rest with
           | piece :: pieces => String c piece :: pieces
           | [] => [String c EmptyString]
           end
  end.

(** [configArg.split('=')[1]] *)
Definition configPath (configArg : string) : option string :=
  nth_error (split "="%char configArg) 1.

(** The value of [mcpOptions] when the server is constructed. [require] is
    Node's module loader applied to the configuration path; a failure to
    load, or to read the properties of what was loaded, lands in the
    [catch], which only logs. *)
Definition mcpOptions (argv : list string)
                      (require : option string -> result failure ConfigData)
  : option ServerOptions :=
  if (2 <? List.length argv)%nat then
    match find (fun arg => String.prefix "--config=" arg) argv with
    | Some configArg =>
        match require (configPath configArg) with
        | Ok configData =>
            Some {| apiKey := or_undefined (config_OPENROUTER_API_KEY configData)
                                           (config_apiKey configData);
                    defaultModel := or_undefined (config_OPENROUTER_DEFAULT_MODEL configData)
                                                 (config_defaultModel configData);
                    defaultAudioModel := None |}
        | Err _ => None
        end
    | None => None
    end
  else None.

(** [new OpenRouterMultimodalServer(mcpOptions)] at the end of the script. *)
Definition main (env : Env) (argv : list string)
                (require : option string -> result failure ConfigData)
  : result failure ToolHandlersArguments :=
  constructor env (mcpOptions argv require).

(** A configuration file and an environment to run the script on. *)
Definition sample_require (path : option string) : result failure ConfigData :=
  match path with
  | Some file =>
      if file =? "/etc/openrouter.json"
      then Ok {| config_OPENROUTER_API_KEY := None;
                 config_apiKey := Some "sk-from-file";
                 config_OPENROUTER_DEFAULT_MODEL := Some "file/vision-model";
                 config_defaultModel := None |}
      else Err (ErrorObject ("Cannot find module '" ++ file ++ "'"))
  | None => Err (ErrorObject "The argument must be of type string. Received undefined")
  end.

Definition sample_env : Env :=
  {| OPENROUTER_API_KEY := Some "sk-from-env";
     OPENROUTER_DEFAULT_MODEL_IMG := None;
     OPENROUTER_DEFAULT_MODEL_IMG_BACKUP := None;
     OPENROUTER_DEFAULT_MODEL_AUDIO := None;
     OPENROUTER_DEFAULT_MODEL_AUDIO_BACKUP := Some "backup/audio-model" |}.

End Startup.

(** The test a listed model must pass to be picked by discovery. *)
Definition is_free_audio_model (P : Platform) (entry : Model.t) : bool :=
  let modelId := toLowerCase P (Model.id entry) in
  includes modelId "free"
  && (includes modelId "audio" || includes modelId "voxtral" || includes modelId "whisper").

(** The instruction sent with every audio payload. *)
Definition transcription_instruction : string :=
  "Please transcribe and provide me the raw content of this audio.".

(** An optional string that is neither [undefined] nor empty. *)
Definition is_set (s : option string) : bool :=
  match s with
  | Some v => negb (v =? "")
  | None => false
  end.

Fixpoint has_equals_sign (s : string) : bool :=
  match s with
  | EmptyString => false
  | String c rest => Ascii.eqb c "="%char || has_equals_sign rest
  end.

Fixpoint has_backslash (s : string) : bool :=
  match s with
  | EmptyString => false
  | String c rest => Ascii.eqb c "\"%char || has_backslash rest
  end.

(* ===================================================================== *)
(** ** Basic facts about the three asynchronous helpers *)
(* ===================================================================== *)

Section Facts.

Context (P : Platform) (w : World).

Lemma attempt_run model content :
  attempt P w model content
  = ([EvCreate model content], lift (attempt_outcome P w model content)).
Proof.
  unfold attempt_outcome, attempt, success_result, await, bind, outcome.
  destruct (chat_completions_create w model content) as [c | f]; simpl; [| reflexivity].
  destruct (Completion.choices c); reflexivity.
Qed.

Lemma fetchAudio_run audioPath :
  exists ev, is_payload_fetch ev = true /\
    fetchAudio P w audioPath = ([ev], lift (load_outcome P w audioPath)).
Proof.
  unfold load_outcome, fetchAudio, await, bind, outcome.
  destruct (isUrl P audioPath).
  - exists (EvFetch audioPath); split; [reflexivity |].
    destruct (fetch w audioPath) as [r | f]; simpl; [| reflexivity].
    destruct (ok r); simpl; [| reflexivity].
    destruct (arrayBuffer r); reflexivity.
  - eexists (EvReadFile _); split; [reflexivity |].
    simpl. destruct (readFile w _); reflexivity.
Qed.

Lemma findSuitableFreeAudioModel_run :
  findSuitableFreeAudioModel P w = ([EvModelsList], Ok (free_model P w)).
Proof.
  unfold free_model, findSuitableFreeAudioModel, await, bind, try_catch, outcome.
  destruct (models_list w) as [[[| m data] |] | f]; simpl; try reflexivity.
  destruct (includes _ _ && _); simpl.
  - reflexivity.
  - destruct (map _ _); reflexivity.
Qed.

Lemma configured_backup_spec :
  match OPENROUTER_DEFAULT_MODEL_AUDIO_BACKUP w with
  | Some backup =>
      if backup =? "" then configured_backup w = None
      else configured_backup w = Some backup
  | None => configured_backup w = None
  end.
Proof.
  unfold configured_backup.
  destruct (OPENROUTER_DEFAULT_MODEL_AUDIO_BACKUP w) as [b |]; [| reflexivity].
  destruct (b =? ""); reflexivity.
Qed.

(** After a failed primary attempt, the [catch (primaryError)] block
    follows one of the five remaining paths. *)
Lemma fallback_paths primary content primaryError :
  attempt_outcome P w primary content = Err primaryError ->
  exists calls r,
    chain P w primary content (EvCreate primary content :: calls) r
    /\ (let backupModel := OPENROUTER_DEFAULT_MODEL_AUDIO_BACKUP w in
        let no_backup :=
          freeModel <- findSuitableFreeAudioModel P w ;;
          if negb (freeModel =? "") && negb (freeModel =? primary)
          then attempt P w freeModel content
          else throw (Raised primaryError) in
        match backupModel with
        | Some backup =>
            if negb (backup =? "") && negb (backup =? primary) then
              try_catch (attempt P w backup content)
                (fun backupError =>
                   freeModel <- findSuitableFreeAudioModel P w ;;
                   if negb (freeModel =? "") && negb (freeModel =? primary)
                      && negb (freeModel =? backup)
                   then attempt P w freeModel content
                   else throw backupError)
            else no_backup
        | None => no_backup
        end) = (calls, lift r).
Proof.
  intros Hp. cbv zeta.
  assert (Hnb : configured_backup w = None \/ configured_backup w = Some primary ->
    exists calls r,
      chain P w primary content (EvCreate primary content :: calls) r
      /\ (freeModel <- findSuitableFreeAudioModel P w ;;
          if negb (freeModel =? "") && negb (freeModel =? primary)
          then attempt P w freeModel content
          else throw (Raised primaryError)) = (calls, lift r)).
  { intros Hcb. rewrite findSuitableFreeAudioModel_run. unfold bind.
    destruct (String.eqb_spec (free_model P w) "") as [He | He]; simpl.
    - exists [EvModelsList], (Err primaryError). split; [| reflexivity].
      eapply chain_exhausted; eauto.
    - destruct (String.eqb_spec (free_model P w) primary) as [Hf | Hf]; simpl.
      + exists [EvModelsList], (Err primaryError). split; [| reflexivity].
        eapply chain_exhausted; eauto.
      + rewrite attempt_run. simpl.
        eexists _, _. split; [| reflexivity].
        eapply chain_free; eauto. }
  pose proof configured_backup_spec as Hcb.
  destruct (OPENROUTER_DEFAULT_MODEL_AUDIO_BACKUP w) as [b |]; [| auto].
  destruct (String.eqb_spec b "") as [Hb | Hb]; simpl; [auto |].
  destruct (String.eqb_spec b primary) as [Hbp | Hbp]; simpl.
  { subst b. auto. }
  rewrite attempt_run. unfold try_catch.
  destruct (attempt_outcome P w b content) as [r | backupError] eqn:Hbo; simpl.
  { exists [EvCreate b content], (Ok r). split; [| reflexivity].
    eapply chain_backup; eauto. }
  rewrite findSuitableFreeAudioModel_run. unfold bind.
  destruct (String.eqb_spec (free_model P w) "") as [He | He]; simpl.
  { eexists _, (Err backupError). split; [| reflexivity].
    eapply chain_backup_exhausted; eauto. }
  destruct (String.eqb_spec (free_model P w) primary) as [Hf | Hf]; simpl.
  { eexists _, (Err backupError). split; [| reflexivity].
    eapply chain_backup_exhausted; eauto. }
  destruct (String.eqb_spec (free_model P w) b) as [Hfb | Hfb]; simpl.
  { eexists _, (Err backupError). split; [| reflexivity].
    eapply chain_backup_exhausted; eauto. }
  rewrite attempt_run. simpl.
  eexists _, _. split; [| reflexivity].
  eapply chain_backup_free; eauto.
Qed.

(** Every invocation follows one of the paths of [run]. *)
Lemma handleAnalyzeAudio_runs request defaultModel :
  run P w request defaultModel (handleAnalyzeAudio P w request defaultModel).
Proof.
  unfold handleAnalyzeAudio.
  destruct (Request.audio_url request) as [url |] eqn:Hurl;
    [| apply run_invalid; auto].
  destruct (String.eqb_spec url "") as [He | He]; simpl.
  { subst url. apply run_invalid; auto. }
  destruct (fetchAudio_run url) as (ev & Hev & ->).
  fold (primary_model request defaultModel).
  destruct (load_outcome P w url) as [buffer | f] eqn:Hload; simpl.
  2:{ change (or_else (Request.model request) (or_else defaultModel DEFAULT_AUDIO_MODEL))
        with (primary_model request defaultModel).
      replace (match f with ErrorObject m => m | OtherValue m => m end)
        with (failure_message f) by (destruct f; reflexivity).
      eapply run_load_failed; eauto. }
  fold (message_content P buffer url).
  rewrite attempt_run.
  destruct (attempt_outcome P w (primary_model request defaultModel)
                            (message_content P buffer url)) as [r | primaryError] eqn:Hp.
  { simpl. apply (run_chain P w request defaultModel url ev buffer _ (Ok r)); auto.
    apply chain_primary; assumption. }
  destruct (fallback_paths _ _ _ Hp) as (calls & r & Hchain & Heq).
  cbv zeta in Heq. simpl. rewrite Heq. simpl.
  destruct r as [a | f]; simpl.
  - apply (run_chain P w request defaultModel url ev buffer _ (Ok a)); auto.
  - rewrite app_nil_r.
    replace (match f with ErrorObject m => m | OtherValue m => m end)
      with (failure_message f) by (destruct f; reflexivity).
    apply (run_chain P w request defaultModel url ev buffer _ (Err f)); auto.
Qed.

End Facts.

(* ===================================================================== *)
(** ** Format detection *)
(* ===================================================================== *)

Lemma byte_is_R b : Z.eqb (byte_value b) 0x52 = match b with x52 => true | _ => false end.
Proof. destruct b; reflexivity. Qed.

Lemma byte_is_I b : Z.eqb (byte_value b) 0x49 = match b with x49 => true | _ => false end.
Proof. destruct b; reflexivity. Qed.

Lemma byte_is_F b : Z.eqb (byte_value b) 0x46 = match b with x46 => true | _ => false end.
Proof. destruct b; reflexivity. Qed.

Lemma byte_is_FF b : Z.eqb (byte_value b) 0xFF = match b with xff => true | _ => false end.
Proof. destruct b; reflexivity. Qed.

(** The first test of [detectAudioFormat] is the RIFF magic number. *)
Lemma starts_with_RIFF_spec buffer :
  strict_eq_num (index buffer 0) 0x52 && strict_eq_num (index buffer 1) 0x49
  && strict_eq_num (index buffer 2) 0x46 && strict_eq_num (index buffer 3) 0x46
  = starts_with_RIFF buffer.
Proof.
  unfold strict_eq_num, index.
  destruct buffer as [| b0 [| b1 [| b2 [| b3 rest]]]]; simpl;
    rewrite ?byte_is_R, ?byte_is_I, ?byte_is_F, ?andb_false_r.
  all: destruct b0 || idtac; try reflexivity.
  all: destruct b1; try reflexivity.
  all: destruct b2; try reflexivity.
  all: destruct b3; reflexivity.
Qed.

(** The second test is the MPEG frame sync. *)
Lemma starts_with_MPEG_sync_spec buffer :
  strict_eq_num (index buffer 0) 0xFF && Z.eqb (bit_and (index buffer 1) 0xE0) 0xE0
  = starts_with_MPEG_sync buffer.
Proof.
  unfold strict_eq_num, bit_and, index.
  destruct buffer as [| b0 [| b1 rest]]; simpl; rewrite ?byte_is_FF.
  - reflexivity.
  - destruct b0; reflexivity.
  - destruct b0; reflexivity.
Qed.

Lemma detectAudioFormat_cases P buffer filename :
  detectAudioFormat P buffer filename
  = if starts_with_RIFF buffer then "wav"
    else if starts_with_MPEG_sync buffer then "mp3"
    else if toLowerCase P (path_extname P filename) =? ".wav" then "wav"
    else if toLowerCase P (path_extname P filename) =? ".mp3" then "mp3"
    else "wav".
Proof.
  unfold detectAudioFormat.
  rewrite starts_with_RIFF_spec, starts_with_MPEG_sync_spec. reflexivity.
Qed.

(** C7. Format detection is total: on every byte buffer, the empty one and
    those shorter than four bytes included, and on every file name,
    [detectAudioFormat] returns ['wav'] or ['mp3']; an index outside the
    buffer reads [undefined] and makes the magic-number tests false. *)
Theorem detectAudioFormat_total :
  forall (P : Platform) (buffer : Buffer) (filename : string),
    (detectAudioFormat P buffer filename = "wav"
     \/ detectAudioFormat P buffer filename = "mp3")
    /\ (forall k,
          index buffer (List.length buffer + k) = None
          /\ forall n, strict_eq_num (index buffer (List.length buffer + k)) n = false).
Proof.
  intros P buffer filename. split.
  - rewrite detectAudioFormat_cases.
    destruct (starts_with_RIFF buffer); [now left |].
    destruct (starts_with_MPEG_sync buffer); [now right |].
    destruct (_ =? ".wav"); [now left |].
    destruct (_ =? ".mp3"); [now right | now left].
  - intros k.
    assert (Hnone : index buffer (List.length buffer + k) = None)
      by (apply nth_error_None; lia).
    split; [exact Hnone |]. intros n. rewrite Hnone. reflexivity.
Qed.

(** C8. Classifiers are tried in a fixed order and the first match wins: a
    buffer that starts with the RIFF magic number is ['wav'] whatever the
    file name; otherwise a buffer that starts with an MPEG frame sync (0xFF,
    then a byte whose top three bits are set) is ['mp3'] whatever the file
    name; otherwise the lower-cased extension of the file name decides
    (['.wav'], ['.mp3']); otherwise the default ['wav'] is returned. *)
Theorem detectAudioFormat_precedence :
  forall (P : Platform) (buffer : Buffer) (filename : string),
    let ext := toLowerCase P (path_extname P filename) in
    (starts_with_RIFF buffer = true ->
       detectAudioFormat P buffer filename = "wav")
    /\ (starts_with_RIFF buffer = false -> starts_with_MPEG_sync buffer = true ->
          detectAudioFormat P buffer filename = "mp3")
    /\ (starts_with_RIFF buffer = false -> starts_with_MPEG_sync buffer = false ->
          (ext = ".wav" -> detectAudioFormat P buffer filename = "wav")
          /\ (ext = ".mp3" -> detectAudioFormat P buffer filename = "mp3")
          /\ (ext <> ".wav" -> ext <> ".mp3" ->
                detectAudioFormat P buffer filename = "wav")).
Proof.
  intros P buffer filename ext. subst ext.
  rewrite detectAudioFormat_cases.
  split; [| split].
  - intros ->. reflexivity.
  - intros -> ->. reflexivity.
  - intros -> ->. split; [| split].
    + intros ->. reflexivity.
    + intros ->. reflexivity.
    + intros Hwav Hmp3.
      destruct (String.eqb_spec (toLowerCase P (path_extname P filename)) ".wav");
        [contradiction |].
      destruct (String.eqb_spec (toLowerCase P (path_extname P filename)) ".mp3");
        [contradiction | reflexivity].
Qed.

(** An MP3 payload behind a name that ends in [.wav]: the sync pattern wins. *)
Lemma detectAudioFormat_precedence_witness :
  starts_with_RIFF Sample.mpeg_bytes = false
  /\ starts_with_MPEG_sync Sample.mpeg_bytes = true
  /\ detectAudioFormat Sample.platform Sample.mpeg_bytes "take1.WAV" = "mp3".
Proof.
  split; [reflexivity | split; [reflexivity |]].
  exact (proj1 (proj2 (detectAudioFormat_precedence
                         Sample.platform Sample.mpeg_bytes "take1.WAV"))
               eq_refl eq_refl).
Defined.

(* ===================================================================== *)
(** ** Payload loading *)
(* ===================================================================== *)

(** [normalizePath] turns every backslash into a slash and leaves every
    other character where it is. *)
Lemma normalizePath_get filePath n :
  String.get n (normalizePath filePath)
  = option_map (fun c => if Ascii.eqb c "\"%char then "/"%char else c)
               (String.get n filePath).
Proof.
  revert n. induction filePath as [| c rest IH]; intros n; simpl.
  - reflexivity.
  - destruct n as [| n]; [reflexivity | apply IH].
Qed.

(** C9. The loader classifies its reference by URL parsing. When parsing
    succeeds it issues one HTTP GET, fails when the status is outside
    200..299, and otherwise yields the body. When parsing fails it takes the
    reference as a path: backslashes become slashes, a path that is not
    absolute is resolved against the working directory, the file is read
    whole, and an I/O error is passed on unchanged. *)
Theorem fetchAudio_classifies_by_URL_parsing :
  forall (P : Platform) (w : World) (ref : string),
    (URL_parses P ref = true ->
       trace (fetchAudio P w ref) = [EvFetch ref]
       /\ (forall f, fetch w ref = Err f ->
             outcome (fetchAudio P w ref) = Err (Raised f))
       /\ (forall response, fetch w ref = Ok response ->
             ((status response < 200 \/ 300 <= status response)%Z ->
                outcome (fetchAudio P w ref)
                = Err (Raised (ErrorObject
                                 ("Failed to fetch audio: " ++ statusText response))))
             /\ ((200 <= status response < 300)%Z ->
                   outcome (fetchAudio P w ref) = lift (arrayBuffer response))))
    /\ (URL_parses P ref = false ->
          let normalized := normalizePath ref in
          let resolved :=
            if path_isAbsolute P normalized then normalized
            else path_resolve P (cwd w) normalized in
          (forall n, String.get n normalized
                     = option_map (fun c => if Ascii.eqb c "\"%char then "/"%char else c)
                                  (String.get n ref))
          /\ fetchAudio P w ref = ([EvReadFile resolved], lift (readFile w resolved))).
Proof.
  intros P w ref. unfold fetchAudio, isUrl. split; intros Hparse; rewrite Hparse.
  - unfold await, bind, trace, outcome.
    destruct (fetch w ref) as [r | f] eqn:Hfetch.
    + split; [| split].
      * simpl. destruct (negb (ok r)); simpl; [reflexivity |].
        destruct (arrayBuffer r); reflexivity.
      * intros f Hf. discriminate Hf.
      * intros response Hr. injection Hr as <-. unfold ok. split; intros Hstatus.
        -- replace ((200 <=? status r)%Z && (status r <? 300)%Z) with false
             by (symmetry; apply andb_false_iff; lia).
           reflexivity.
        -- replace ((200 <=? status r)%Z && (status r <? 300)%Z) with true
             by (symmetry; apply andb_true_iff; lia).
           simpl. destruct (arrayBuffer r); reflexivity.
    + split; [reflexivity | split].
      * intros f' Hf. injection Hf as <-. reflexivity.
      * intros response Hr. discriminate Hr.
  - cbv zeta. split; [apply normalizePath_get |].
    unfold await. destruct (path_isAbsolute P (normalizePath ref)); simpl;
      destruct (readFile w _); reflexivity.
Qed.

(** A relative Windows-style path is normalised, resolved and read. *)
Lemma fetchAudio_classifies_by_URL_parsing_witness :
  URL_parses Sample.platform "audio\clip.wav" = false
  /\ fetchAudio Sample.platform (Sample.world None Sample.listing_down Sample.every_model_fails)
                "audio\clip.wav"
     = ([EvReadFile "/srv/app/audio/clip.wav"], Ok Sample.riff_bytes).
Proof.
  split; [reflexivity |].
  exact (proj2 (proj2 (fetchAudio_classifies_by_URL_parsing
                         Sample.platform
                         (Sample.world None Sample.listing_down Sample.every_model_fails)
                         "audio\clip.wav")
                      eq_refl)).
Defined.

(* ===================================================================== *)
(** ** The fallback chain *)
(* ===================================================================== *)

Lemma attempt_outcome_unfold P w model content :
  attempt_outcome P w model content
  = match chat_completions_create w model content with
    | Ok completion =>
        match outcome (success_result P completion) with
        | Ok r => Ok r
        | Err (Raised f) => Err f
        | Err (McpError _ message) => Err (ErrorObject message)
        end
    | Err f => Err f
    end.
Proof.
  unfold attempt_outcome, attempt, await, bind, outcome.
  destruct (chat_completions_create w model content) as [c | f]; [| reflexivity].
  simpl. destruct (success_result P c) as [t r]. reflexivity.
Qed.

(** A successful attempt returns an envelope without the error mark. *)
Lemma attempt_outcome_Ok_isError P w model content r :
  attempt_outcome P w model content = Ok r -> isError r = None.
Proof.
  rewrite attempt_outcome_unfold. unfold success_result, outcome.
  destruct (chat_completions_create w model content) as [c | f]; [| discriminate].
  destruct (Completion.choices c); simpl; [discriminate |].
  intros H. injection H as <-. reflexivity.
Qed.

(** A resolved call whose completion has a choice is a successful attempt. *)
Lemma attempt_outcome_of_completion P w model content completion :
  chat_completions_create w model content = Ok completion ->
  Completion.choices completion <> [] ->
  exists r, attempt_outcome P w model content = Ok r
            /\ outcome (success_result P completion) = Ok r.
Proof.
  intros Hc Hne. rewrite attempt_outcome_unfold, Hc.
  unfold success_result, outcome.
  destruct (Completion.choices completion); [contradiction |].
  simpl. eexists; split; reflexivity.
Qed.

Lemma payload_fetch_cases ev :
  is_payload_fetch ev = true ->
  is_listing ev = false /\ is_completion ev = false
  /\ (forall t, creates (ev :: t) = creates t)
  /\ (forall t, last_attempt (ev :: t) = last_attempt t)
  /\ (forall m c, ev <> EvCreate m c).
Proof.
  destruct ev; simpl; intros H; try discriminate H; repeat split; intros; discriminate.
Qed.

(** Every completion call of one invocation carries the same content. *)
Lemma chain_content P w primary content calls r :
  chain P w primary content calls r ->
  forall m c, In (EvCreate m c) calls -> c = content.
Proof.
  intros Hchain m c Hin.
  destruct Hchain; simpl in Hin;
    repeat (destruct Hin as [Hin | Hin]; [try discriminate Hin; injection Hin as _ <-; reflexivity |]);
    contradiction.
Qed.

Lemma eqb_neq_false (a b : string) : a <> b -> (a =? b) = false.
Proof. apply String.eqb_neq. Qed.

(** C4. A request without [audio_url] is rejected with the invalid-params
    protocol fault, which the outer handler rethrows; nothing is fetched,
    listed or completed. *)
Theorem missing_audio_url_is_protocol_fault :
  forall (P : Platform) (w : World) (request : Request.t) (defaultModel : option string),
    Request.audio_url request = None ->
    handleAnalyzeAudio P w request defaultModel
    = ([], Err (McpError InvalidParams "audio_url parameter is required")).
Proof.
  intros P w request defaultModel Hmissing.
  unfold handleAnalyzeAudio. rewrite Hmissing. reflexivity.
Qed.

Lemma missing_audio_url_is_protocol_fault_witness :
  handleAnalyzeAudio Sample.platform
    (Sample.world (Some "backup/model") Sample.listing_down Sample.every_model_answers)
    {| Request.audio_url := None; Request.model := Some "m1" |} None
  = ([], Err (McpError InvalidParams "audio_url parameter is required")).
Proof.
  apply missing_audio_url_is_protocol_fault. reflexivity.
Defined.

(** C6. One invocation performs at most one payload fetch, at most one
    model-listing call and at most three completion calls, one after the
    other; the payload fetch, when there is one, comes first. *)
Theorem call_budget :
  forall (P : Platform) (w : World) (request : Request.t) (defaultModel : option string),
    let calls := trace (handleAnalyzeAudio P w request defaultModel) in
    (count is_payload_fetch calls <= 1)%nat
    /\ (count is_listing calls <= 1)%nat
    /\ (count is_completion calls <= 3)%nat
    /\ count is_payload_fetch (tl calls) = 0%nat.
Proof.
  intros P w request defaultModel.
  destruct (handleAnalyzeAudio_runs P w request defaultModel)
    as [Hnone | url ev f Hurl Hne Hev Hload | url ev buffer calls r Hurl Hne Hev Hload Hchain];
    cbv zeta; unfold trace, count; simpl.
  - repeat split; lia.
  - destruct (payload_fetch_cases ev Hev) as (-> & -> & _). rewrite Hev. simpl.
    repeat split; lia.
  - destruct (payload_fetch_cases ev Hev) as (-> & -> & _). rewrite Hev.
    destruct Hchain; simpl; repeat split; lia.
Qed.

Lemma NoDup_two (a b : string) : a <> b -> NoDup [a; b].
Proof.
  intros Hab. constructor.
  - simpl. intros [H | []]. congruence.
  - constructor; [intros [] | constructor].
Qed.

Lemma NoDup_three (a b c : string) : a <> b -> a <> c -> b <> c -> NoDup [a; b; c].
Proof.
  intros Hab Hac Hbc. constructor.
  - simpl. intros [H | [H | []]]; congruence.
  - apply NoDup_two; assumption.
Qed.

(** C5. No model identifier is sent to the completion API twice, and the
    identifiers that are sent are, in order, the first ones of the
    candidate sequence (primary, backup, discovered model) once its
    duplicates are dropped with the first occurrence kept: the backup is
    tried only when it differs from the primary, the discovered model only
    when it differs from both. *)
Theorem no_model_is_tried_twice :
  forall (P : Platform) (w : World) (request : Request.t) (defaultModel : option string),
    let called := creates (trace (handleAnalyzeAudio P w request defaultModel)) in
    NoDup called
    /\ exists rest,
         dedupe (candidates P w request defaultModel) = (called ++ rest)%list.
Proof.
  intros P w request defaultModel.
  destruct (handleAnalyzeAudio_runs P w request defaultModel)
    as [Hnone | url ev f Hurl Hne Hev Hload | url ev buffer calls r Hurl Hne Hev Hload Hchain];
    cbv zeta; unfold trace; simpl fst.
  - split; [constructor | eexists; reflexivity].
  - destruct (payload_fetch_cases ev Hev) as (_ & _ & -> & _).
    split; [constructor | eexists; reflexivity].
  - destruct (payload_fetch_cases ev Hev) as (_ & _ & -> & _).
    unfold candidates.
    set (p := primary_model request defaultModel) in *.
    destruct Hchain as
      [ r Hp
      | e1 b r Hp Hb Hbp Hbo
      | e1 b e2 Hp Hb Hbp Hbo Hfe Hfp Hfb
      | e1 b e2 Hp Hb Hbp Hbo Hfree
      | e1 Hp Hb Hfe Hfp
      | e1 Hp Hb Hfree ]; simpl creates.
    + split; [repeat constructor; intros [] | simpl; eexists; reflexivity].
    + split; [apply NoDup_two; congruence |].
      rewrite Hb. simpl. rewrite (eqb_neq_false b p Hbp). simpl.
      eexists; reflexivity.
    + split; [apply NoDup_three; congruence |].
      rewrite Hb. simpl.
      rewrite (eqb_neq_false _ _ Hfb). simpl.
      rewrite (eqb_neq_false b p Hbp), (eqb_neq_false _ _ Hfp). simpl.
      exists []. reflexivity.
    + split; [apply NoDup_two; congruence |].
      rewrite Hb. simpl. destruct (free_model P w =? b); simpl;
        rewrite (eqb_neq_false b p Hbp); simpl; eexists; reflexivity.
    + split; [apply NoDup_two; congruence |].
      destruct Hb as [Hb | Hb]; rewrite Hb; simpl.
      * rewrite (eqb_neq_false _ _ Hfp). simpl. exists []. reflexivity.
      * rewrite (eqb_neq_false _ _ Hfp). simpl. rewrite String.eqb_refl. simpl.
        rewrite (eqb_neq_false _ _ Hfp). simpl. exists []. reflexivity.
    + split; [repeat constructor; intros [] | simpl; eexists; reflexivity].
Qed.

(** C3. When every completion attempt of an invocation fails, the handler
    returns (it does not throw) the soft-failure envelope built from the
    error of the last attempt made: its message, zeroed usage counts, and
    the error mark. *)
Theorem exhaustion_surfaces_last_error :
  forall (P : Platform) (w : World) (request : Request.t) (defaultModel : option string)
         (m : string) (c : list content_part),
    last_attempt (trace (handleAnalyzeAudio P w request defaultModel)) = Some (m, c) ->
    (forall m' c',
        In (EvCreate m' c') (trace (handleAnalyzeAudio P w request defaultModel)) ->
        exists f, attempt_outcome P w m' c' = Err f) ->
    exists f,
      attempt_outcome P w m c = Err f
      /\ outcome (handleAnalyzeAudio P w request defaultModel)
         = Ok (soft_failure P (failure_message f) (primary_model request defaultModel)).
Proof.
  intros P w request defaultModel m c.
  destruct (handleAnalyzeAudio_runs P w request defaultModel)
    as [Hnone | url ev f Hurl Hne Hev Hload | url ev buffer calls r Hurl Hne Hev Hload Hchain];
    unfold trace, outcome; simpl fst; simpl snd.
  - discriminate.
  - destruct (payload_fetch_cases ev Hev) as (_ & _ & _ & -> & _). discriminate.
  - destruct (payload_fetch_cases ev Hev) as (_ & _ & _ & -> & _).
    intros Hlast Hall.
    assert (Hall' : forall m' c', In (EvCreate m' c') calls ->
                                  exists f, attempt_outcome P w m' c' = Err f)
      by (intros m' c' Hin; apply Hall; right; exact Hin).
    clear Hall.
    destruct Hchain as
      [ r Hp
      | e1 b r Hp Hb Hbp Hbo
      | e1 b e2 Hp Hb Hbp Hbo Hfe Hfp Hfb
      | e1 b e2 Hp Hb Hbp Hbo Hfree
      | e1 Hp Hb Hfe Hfp
      | e1 Hp Hb Hfree ];
      simpl in Hlast; injection Hlast as <- <-.
    + destruct (Hall' _ _ (or_introl eq_refl)) as (f & Hf). congruence.
    + destruct (Hall' b _ (or_intror (or_introl eq_refl))) as (f & Hf). congruence.
    + destruct (Hall' (free_model P w) _
                  (or_intror (or_intror (or_intror (or_introl eq_refl))))) as (f & Hf).
      exists f. rewrite Hf. split; reflexivity.
    + exists e2. split; [assumption | reflexivity].
    + destruct (Hall' (free_model P w) _
                  (or_intror (or_intror (or_introl eq_refl)))) as (f & Hf).
      exists f. rewrite Hf. split; reflexivity.
    + exists e1. split; [assumption | reflexivity].
Qed.

(** Primary, backup and a discovered free model are all rate limited: the
    envelope carries the free model's error. *)
Lemma exhaustion_surfaces_last_error_witness :
  exists f,
    attempt_outcome Sample.platform
      (Sample.world (Some "backup/model")
                    (Ok (Some [ {| Model.id := "openai/whisper:free" |} ]))
                    Sample.every_model_fails)
      "openai/whisper:free"
      (message_content Sample.platform Sample.riff_bytes "audio\clip.wav") = Err f
    /\ outcome (handleAnalyzeAudio Sample.platform
                  (Sample.world (Some "backup/model")
                                (Ok (Some [ {| Model.id := "openai/whisper:free" |} ]))
                                Sample.every_model_fails)
                  (Sample.request (Some "m1")) None)
       = Ok (soft_failure Sample.platform (failure_message f) "m1").
Proof.
  apply (exhaustion_surfaces_last_error
           Sample.platform
           (Sample.world (Some "backup/model")
                         (Ok (Some [ {| Model.id := "openai/whisper:free" |} ]))
                         Sample.every_model_fails)
           (Sample.request (Some "m1")) None
           "openai/whisper:free"
           (message_content Sample.platform Sample.riff_bytes "audio\clip.wav")).
  - reflexivity.
  - intros m' c' Hin. vm_compute in Hin.
    destruct Hin as [Hin | [Hin | [Hin | [Hin | [Hin | []]]]]];
      try discriminate Hin; injection Hin as <- <-; eexists; reflexivity.
Defined.

(** C10. The [model] field of a soft-failure envelope is the primary
    candidate (the request's model, else the caller's default, else the
    built-in default), whichever attempt produced the reported error. *)
Theorem soft_failure_names_primary_model :
  forall (P : Platform) (w : World) (request : Request.t) (defaultModel : option string)
         (envelope : CallToolResult),
    outcome (handleAnalyzeAudio P w request defaultModel) = Ok envelope ->
    isError envelope = Some true ->
    exists message,
      envelope = soft_failure P message
                   (or_else (Request.model request)
                            (or_else defaultModel DEFAULT_AUDIO_MODEL)).
Proof.
  intros P w request defaultModel envelope.
  fold (primary_model request defaultModel).
  destruct (handleAnalyzeAudio_runs P w request defaultModel)
    as [Hnone | url ev f Hurl Hne Hev Hload | url ev buffer calls r Hurl Hne Hev Hload Hchain];
    unfold outcome; simpl snd.
  - discriminate.
  - intros H _. injection H as <-. eexists; reflexivity.
  - intros Hout Hmark. destruct r as [e | f]; simpl in Hout; injection Hout as <-.
    + assert (Hsucc : exists m c, attempt_outcome P w m c = Ok e)
        by (inversion Hchain; subst; eauto).
      destruct Hsucc as (m & c & He).
      rewrite (attempt_outcome_Ok_isError _ _ _ _ _ He) in Hmark. discriminate.
    + eexists; reflexivity.
Qed.

(** The backup's error is reported, under the primary's name. *)
Lemma soft_failure_names_primary_model_witness :
  outcome (handleAnalyzeAudio Sample.platform
             (Sample.world (Some "backup/model") Sample.listing_down Sample.every_model_fails)
             (Sample.request (Some "m1")) None)
  = Ok (soft_failure Sample.platform "429 rate limited: backup/model" "m1")
  /\ exists message,
       soft_failure Sample.platform "429 rate limited: backup/model" "m1"
       = soft_failure Sample.platform message
                      (or_else (Some "m1") (or_else None DEFAULT_AUDIO_MODEL)).
Proof.
  split; [reflexivity |].
  apply (soft_failure_names_primary_model
           Sample.platform
           (Sample.world (Some "backup/model") Sample.listing_down Sample.every_model_fails)
           (Sample.request (Some "m1")) None
           (soft_failure Sample.platform "429 rate limited: backup/model" "m1"));
    reflexivity.
Defined.

(** C2, as amended. When the completion call for the primary candidate
    resolves with a completion that has at least one choice, the handler
    returns the result built from that completion at once: the primary is
    the only model called and the model listing is never requested. *)
Theorem primary_success_short_circuits :
  forall (P : Platform) (w : World) (request : Request.t) (defaultModel : option string)
         (content : list content_part) (completion : Completion.t),
    In (EvCreate (primary_model request defaultModel) content)
       (trace (handleAnalyzeAudio P w request defaultModel)) ->
    chat_completions_create w (primary_model request defaultModel) content = Ok completion ->
    Completion.choices completion <> [] ->
    creates (trace (handleAnalyzeAudio P w request defaultModel))
      = [primary_model request defaultModel]
    /\ count is_listing (trace (handleAnalyzeAudio P w request defaultModel)) = 0%nat
    /\ outcome (handleAnalyzeAudio P w request defaultModel)
       = outcome (success_result P completion)
    /\ exists r, outcome (handleAnalyzeAudio P w request defaultModel) = Ok r
                 /\ isError r = None.
Proof.
  intros P w request defaultModel content completion.
  destruct (handleAnalyzeAudio_runs P w request defaultModel)
    as [Hnone | url ev f Hurl Hne Hev Hload | url ev buffer calls r Hurl Hne Hev Hload Hchain];
    unfold trace, outcome, count; simpl fst; simpl snd.
  - intros [].
  - destruct (payload_fetch_cases ev Hev) as (_ & _ & _ & _ & Hnot).
    intros [Hin | []]. destruct (Hnot _ _ Hin).
  - destruct (payload_fetch_cases ev Hev) as (Hl & _ & -> & _ & Hnot).
    intros [Hin | Hin] Hcreate Hchoices; [destruct (Hnot _ _ Hin) |].
    rewrite (chain_content _ _ _ _ _ _ Hchain _ _ Hin) in Hcreate.
    destruct (attempt_outcome_of_completion P w _ _ _ Hcreate Hchoices) as (e & He & Hres).
    simpl filter. rewrite Hl.
    destruct Hchain; try congruence.
    unfold outcome in Hres. rewrite Hres. simpl.
    assert (r = e) by congruence. subst r.
    repeat split. exists e. split; [reflexivity |].
    apply (attempt_outcome_Ok_isError _ _ _ _ _ He).
Qed.

Lemma primary_success_short_circuits_witness :
  creates (trace (handleAnalyzeAudio Sample.platform
                    (Sample.world (Some "backup/model") Sample.listing_down
                                  Sample.every_model_answers)
                    (Sample.request (Some "m1")) None))
    = ["m1"]
  /\ count is_listing
       (trace (handleAnalyzeAudio Sample.platform
                 (Sample.world (Some "backup/model") Sample.listing_down
                               Sample.every_model_answers)
                 (Sample.request (Some "m1")) None)) = 0%nat.
Proof.
  destruct (primary_success_short_circuits
              Sample.platform
              (Sample.world (Some "backup/model") Sample.listing_down
                            Sample.every_model_answers)
              (Sample.request (Some "m1")) None
              (message_content Sample.platform Sample.riff_bytes "audio\clip.wav")
              {| Completion.id := "gen-1";
                 Completion.choices := [ {| Choice.message_content := Some "hello world" |} ];
                 Completion.model := "m1";
                 Completion.usage := Some (JObject [ ("prompt_tokens", JNumber 12);
                                                     ("completion_tokens", JNumber 2);
                                                     ("total_tokens", JNumber 14) ]) |})
    as (Hcalled & Hlisting & _).
  - right. left. reflexivity.
  - reflexivity.
  - discriminate.
  - split; assumption.
Defined.

(** C2 as stated fails: the primary call resolves, but with a completion
    without choices; reading [choices[0].message] throws inside the [try],
    and the handler goes on to the backup and to the model listing. *)
Lemma primary_call_success_short_circuits_fails :
  ~ primary_call_success_short_circuits
      Sample.platform
      (Sample.world (Some "backup/model") Sample.listing_down
                    Sample.every_model_answers_without_choice)
      (Sample.request (Some "m1")) None.
Proof.
  intros Hclaim.
  destruct (Hclaim (message_content Sample.platform Sample.riff_bytes "audio\clip.wav")
                   {| Completion.id := "gen-2"; Completion.choices := [];
                      Completion.model := "m1"; Completion.usage := None |})
    as (Hcalled & _).
  - right. left. reflexivity.
  - reflexivity.
  - vm_compute in Hcalled. discriminate Hcalled.
Qed.

Lemma fallback_model_spec w :
  or_else (OPENROUTER_DEFAULT_MODEL_AUDIO_BACKUP w) DEFAULT_AUDIO_MODEL
  = match configured_backup w with
    | Some backup => backup
    | None => DEFAULT_AUDIO_MODEL
    end.
Proof.
  unfold or_else, configured_backup.
  destruct (OPENROUTER_DEFAULT_MODEL_AUDIO_BACKUP w) as [b |]; [| reflexivity].
  destruct (b =? ""); reflexivity.
Qed.

(** With the listing unavailable, discovery answers the fallback model. *)
Lemma free_model_when_listing_unavailable P w :
  listing_unavailable w ->
  free_model P w = or_else (OPENROUTER_DEFAULT_MODEL_AUDIO_BACKUP w) DEFAULT_AUDIO_MODEL.
Proof.
  unfold free_model, findSuitableFreeAudioModel, await, bind, try_catch, outcome.
  intros [(f & ->) | [-> | ->]]; reflexivity.
Qed.

(** C1, as amended. When the model listing fails or is empty, discovery
    answers the configured backup, or the built-in default audio model when
    no backup is configured. Completion calls then go to the primary, the
    configured backup or the built-in default only. When a backup is
    configured, or the primary is the built-in default, no call goes beyond
    the primary and the backup, and a failure of the last of them is what
    the soft-failure envelope reports. *)
Theorem unavailable_listing_falls_back_to_configured_model :
  forall (P : Platform) (w : World) (request : Request.t) (defaultModel : option string),
    listing_unavailable w ->
    free_model P w = or_else (OPENROUTER_DEFAULT_MODEL_AUDIO_BACKUP w) DEFAULT_AUDIO_MODEL
    /\ (forall m, In m (creates (trace (handleAnalyzeAudio P w request defaultModel))) ->
                  m = primary_model request defaultModel
                  \/ configured_backup w = Some m
                  \/ m = DEFAULT_AUDIO_MODEL)
    /\ (configured_backup w <> None
        \/ primary_model request defaultModel = DEFAULT_AUDIO_MODEL ->
        (forall m, In m (creates (trace (handleAnalyzeAudio P w request defaultModel))) ->
                   m = primary_model request defaultModel \/ configured_backup w = Some m)
        /\ (forall m c f,
              last_attempt (trace (handleAnalyzeAudio P w request defaultModel)) = Some (m, c) ->
              attempt_outcome P w m c = Err f ->
              outcome (handleAnalyzeAudio P w request defaultModel)
              = Ok (soft_failure P (failure_message f)
                                 (primary_model request defaultModel)))).
Proof.
  intros P w request defaultModel Hlist.
  pose proof (free_model_when_listing_unavailable P w Hlist) as Hfree.
  split; [exact Hfree |].
  rewrite fallback_model_spec in Hfree.
  destruct (handleAnalyzeAudio_runs P w request defaultModel)
    as [Hnone | url ev f Hurl Hne Hev Hload | url ev buffer calls r Hurl Hne Hev Hload Hchain];
    unfold trace, outcome; simpl fst; simpl snd.
  - split; [intros m [] |]. intros _. split; [intros m [] | discriminate].
  - destruct (payload_fetch_cases ev Hev) as (_ & _ & -> & -> & _).
    split; [intros m [] |]. intros _. split; [intros m [] | discriminate].
  - destruct (payload_fetch_cases ev Hev) as (_ & _ & -> & -> & _).
    set (p := primary_model request defaultModel) in *.
    destruct Hchain as
      [ r Hp
      | e1 b r Hp Hb Hbp Hbo
      | e1 b e2 Hp Hb Hbp Hbo Hfe Hfp Hfb
      | e1 b e2 Hp Hb Hbp Hbo Hfr
      | e1 Hp Hb Hfe Hfp
      | e1 Hp Hb Hfr ]; simpl creates; simpl last_attempt.
    + split; [intros m [<- | []]; auto |]. intros _.
      split; [intros m [<- | []]; auto |].
      intros m c f Hlast Hf. injection Hlast as <- <-. congruence.
    + split; [intros m [<- | [<- | []]]; auto |]. intros _.
      split; [intros m [<- | [<- | []]]; auto |].
      intros m c f Hlast Hf. injection Hlast as <- <-. congruence.
    + rewrite Hb in Hfree. contradiction.
    + split; [intros m [<- | [<- | []]]; auto |]. intros _.
      split; [intros m [<- | [<- | []]]; auto |].
      intros m c f Hlast Hf. injection Hlast as <- <-.
      assert (e2 = f) by congruence. subst e2. reflexivity.
    + destruct Hb as [Hb | Hb]; rewrite Hb in Hfree; [| contradiction].
      split; [intros m [<- | [<- | []]]; auto |].
      intros [Hcb | Hpd]; [contradiction | congruence].
    + split; [intros m [<- | []]; auto |]. intros _.
      split; [intros m [<- | []]; auto |].
      intros m c f Hlast Hf. injection Hlast as <- <-.
      assert (e1 = f) by congruence. subst e1. reflexivity.
Qed.

(** Primary and backup are rate limited and the listing is down: two
    completion calls, and the envelope reports the backup's error. *)
Lemma unavailable_listing_falls_back_to_configured_model_witness :
  listing_unavailable
    (Sample.world (Some "backup/model") Sample.listing_down Sample.every_model_fails)
  /\ free_model Sample.platform
       (Sample.world (Some "backup/model") Sample.listing_down Sample.every_model_fails)
     = "backup/model".
Proof.
  assert (Hdown : listing_unavailable
            (Sample.world (Some "backup/model") Sample.listing_down
                          Sample.every_model_fails))
    by (left; eexists; reflexivity).
  split; [exact Hdown |].
  exact (proj1 (unavailable_listing_falls_back_to_configured_model
                  Sample.platform
                  (Sample.world (Some "backup/model") Sample.listing_down
                                Sample.every_model_fails)
                  (Sample.request (Some "m1")) None Hdown)).
Defined.

(** C1 as stated fails: no backup is configured, the primary ["m1"] is rate
    limited and the listing is down; discovery answers the built-in default
    model, which is neither the primary nor a backup, and a completion call
    is sent to it. *)
Lemma only_explicit_candidates_called_fails :
  ~ only_explicit_candidates_called
      Sample.platform
      (Sample.world None Sample.listing_down Sample.every_model_fails)
      (Sample.request (Some "m1")) None.
Proof.
  intros Hclaim.
  destruct (Hclaim (or_introl (ex_intro _ (ErrorObject "503 Service Unavailable") eq_refl))
                   DEFAULT_AUDIO_MODEL) as [Hprimary | Hbackup].
  - right. left. reflexivity.
  - vm_compute in Hprimary. discriminate Hprimary.
  - vm_compute in Hbackup. discriminate Hbackup.
Qed.

(* ===================================================================== *)
(** ** Further properties: path normalisation and format detection *)
(* ===================================================================== *)

Lemma normalizePath_has_backslash filePath :
  has_backslash (normalizePath filePath) = false.
Proof.
  induction filePath as [| c rest IH]; simpl; [reflexivity |].
  rewrite IH, orb_false_r.
  destruct (Ascii.eqb c "\"%char) eqn:Hc; [reflexivity | exact Hc].
Qed.

Lemma normalizePath_fixed filePath :
  has_backslash filePath = false -> normalizePath filePath = filePath.
Proof.
  induction filePath as [| c rest IH]; simpl; [reflexivity |].
  intros H. apply orb_false_iff in H as [Hc Hrest].
  rewrite Hc, (IH Hrest). reflexivity.
Qed.

(** X1. [normalizePath] leaves no backslash behind, keeps the length of the
    path, and normalising twice is the same as normalising once. *)
Theorem normalizePath_idempotent :
  forall filePath : string,
    has_backslash (normalizePath filePath) = false
    /\ String.length (normalizePath filePath) = String.length filePath
    /\ normalizePath (normalizePath filePath) = normalizePath filePath.
Proof.
  intros filePath. split; [apply normalizePath_has_backslash | split].
  - induction filePath as [| c rest IH]; simpl; [reflexivity | now rewrite IH].
  - apply normalizePath_fixed, normalizePath_has_backslash.
Qed.

(** X2. A reference without backslashes that does not parse as a URL and is
    absolute is read from exactly the path that was given. *)
Theorem fetchAudio_reads_posix_absolute_path_as_given :
  forall (P : Platform) (w : World) (audioPath : string),
    URL_parses P audioPath = false ->
    has_backslash audioPath = false ->
    path_isAbsolute P audioPath = true ->
    fetchAudio P w audioPath = ([EvReadFile audioPath], lift (readFile w audioPath)).
Proof.
  intros P w audioPath Hurl Hback Habs.
  unfold fetchAudio, isUrl, await. rewrite Hurl.
  rewrite (normalizePath_fixed _ Hback), Habs. simpl.
  destruct (readFile w audioPath); reflexivity.
Qed.

Lemma fetchAudio_reads_posix_absolute_path_as_given_witness :
  fetchAudio Sample.platform
    (Sample.world None Sample.listing_down Sample.every_model_fails)
    "/srv/app/audio/clip.wav"
  = ([EvReadFile "/srv/app/audio/clip.wav"], Ok Sample.riff_bytes).
Proof.
  apply (fetchAudio_reads_posix_absolute_path_as_given
           Sample.platform
           (Sample.world None Sample.listing_down Sample.every_model_fails)
           "/srv/app/audio/clip.wav"); reflexivity.
Defined.

(** X3. The detector answers ['mp3'] exactly when the buffer does not start
    with the RIFF magic number and either starts with an MPEG frame sync or
    the lower-cased extension of the file name is ['.mp3']; in every other
    case it answers ['wav']. *)
Theorem detectAudioFormat_mp3_iff :
  forall (P : Platform) (buffer : Buffer) (filename : string),
    detectAudioFormat P buffer filename = "mp3"
    <-> starts_with_RIFF buffer = false
        /\ (starts_with_MPEG_sync buffer = true
            \/ toLowerCase P (path_extname P filename) = ".mp3").
Proof.
  intros P buffer filename. rewrite detectAudioFormat_cases.
  destruct (starts_with_RIFF buffer).
  - split; [discriminate | intros [H _]; discriminate H].
  - destruct (starts_with_MPEG_sync buffer).
    + split; auto.
    + destruct (String.eqb_spec (toLowerCase P (path_extname P filename)) ".wav") as [Hw | Hw].
      * rewrite Hw. split; [discriminate | intros [_ [H | H]]; discriminate H].
      * destruct (String.eqb_spec (toLowerCase P (path_extname P filename)) ".mp3") as [Hm | Hm].
        -- split; auto.
        -- split; [discriminate | intros [_ [H | H]]; [discriminate H | contradiction]].
Qed.

(** RIFF bytes behind a name that ends in [.mp3] are not ['mp3']. *)
Lemma detectAudioFormat_mp3_iff_witness :
  detectAudioFormat Sample.platform [xff; xfb] "a.wav" = "mp3"
  /\ detectAudioFormat Sample.platform Sample.riff_bytes "a.mp3" <> "mp3".
Proof.
  split.
  - apply (proj2 (detectAudioFormat_mp3_iff Sample.platform [xff; xfb] "a.wav")).
    split; [reflexivity | left; reflexivity].
  - intros H.
    apply (proj1 (detectAudioFormat_mp3_iff Sample.platform Sample.riff_bytes "a.mp3")) in H.
    destruct H as [H _]. discriminate H.
Defined.

(** X4. A buffer with fewer than two bytes matches no magic number: its
    format is the one the file name alone gives, as for the empty buffer. *)
Theorem detectAudioFormat_short_buffer :
  forall (P : Platform) (buffer : Buffer) (filename : string),
    (List.length buffer < 2)%nat ->
    detectAudioFormat P buffer filename = detectAudioFormat P [] filename.
Proof.
  intros P buffer filename Hlen.
  rewrite !detectAudioFormat_cases.
  destruct buffer as [| b0 [| b1 rest]]; simpl in Hlen; try lia.
  - reflexivity.
  - destruct b0; reflexivity.
Qed.

Lemma detectAudioFormat_short_buffer_witness :
  detectAudioFormat Sample.platform [xff] "voice.mp3"
  = detectAudioFormat Sample.platform [] "voice.mp3".
Proof.
  apply (detectAudioFormat_short_buffer Sample.platform [xff] "voice.mp3").
  simpl. lia.
Defined.

Lemma top_three_bits b :
  Z.eqb (Z.land (byte_value b) 0xE0) 0xE0 = (224 <=? byte_value b)%Z.
Proof. destruct b; reflexivity. Qed.

(** X5. After a first byte 0xFF, the MPEG test on the second byte is a
    threshold: values from 224 (0xE0) up give ['mp3'] whatever the file name;
    below that, the first two bytes decide nothing and the file name is
    consulted. *)
Theorem detectAudioFormat_sync_threshold :
  forall (P : Platform) (second : byte) (rest : Buffer) (filename : string),
    ((224 <= byte_value second)%Z ->
       detectAudioFormat P (xff :: second :: rest) filename = "mp3")
    /\ ((byte_value second < 224)%Z ->
          detectAudioFormat P (xff :: second :: rest) filename
          = detectAudioFormat P [] filename).
Proof.
  intros P second rest filename.
  rewrite !detectAudioFormat_cases. simpl. rewrite top_three_bits.
  split; intros H.
  - replace (224 <=? byte_value second)%Z with true by (symmetry; apply Z.leb_le; lia).
    reflexivity.
  - replace (224 <=? byte_value second)%Z with false by (symmetry; apply Z.leb_gt; lia).
    reflexivity.
Qed.

Lemma detectAudioFormat_sync_threshold_witness :
  detectAudioFormat Sample.platform [xff; xe3; x18; xc4] "recording.wav" = "mp3"
  /\ detectAudioFormat Sample.platform [xff; x7f] "recording.wav"
     = detectAudioFormat Sample.platform [] "recording.wav".
Proof.
  split.
  - apply (proj1 (detectAudioFormat_sync_threshold
                    Sample.platform xe3 [x18; xc4] "recording.wav")).
    vm_compute. discriminate.
  - apply (proj2 (detectAudioFormat_sync_threshold
                    Sample.platform x7f [] "recording.wav")).
    vm_compute. reflexivity.
Defined.

(* ===================================================================== *)
(** ** Further properties: free-model discovery *)
(* ===================================================================== *)

Lemma free_model_unfold P w :
  free_model P w
  = match models_list w with
    | Ok (Some data) =>
        match filter (is_free_audio_model P) data with
        | first :: _ => Model.id first
        | [] => or_else (OPENROUTER_DEFAULT_MODEL_AUDIO_BACKUP w) DEFAULT_AUDIO_MODEL
        end
    | _ => or_else (OPENROUTER_DEFAULT_MODEL_AUDIO_BACKUP w) DEFAULT_AUDIO_MODEL
    end.
Proof.
  unfold free_model, findSuitableFreeAudioModel, await, bind, try_catch, outcome.
  destruct (models_list w) as [[[| entry data] |] | f]; try reflexivity.
  unfold is_free_audio_model. cbv zeta.
  match goal with
  | |- context [filter ?p (entry :: data)] =>
      destruct (filter p (entry :: data)) as [| first others]
  end; reflexivity.
Qed.

Lemma or_else_nonempty a b : b <> "" -> or_else a b <> "".
Proof.
  intros Hb. unfold or_else. destruct a as [v |]; [| exact Hb].
  destruct (String.eqb_spec v ""); assumption.
Qed.

Lemma filter_none {A} (p : A -> bool) (l : list A) :
  forallb (fun x => negb (p x)) l = true -> filter p l = [].
Proof.
  induction l as [| x l IH]; simpl; [reflexivity |].
  intros H. apply andb_true_iff in H as [Hx Hl].
  apply negb_true_iff in Hx. rewrite Hx. auto.
Qed.

(** X6. Discovery never rejects: whatever the listing call does, the
    function makes exactly that one call and resolves with a model id. *)
Theorem findSuitableFreeAudioModel_never_rejects :
  forall (P : Platform) (w : World),
    exists model, findSuitableFreeAudioModel P w = ([EvModelsList], Ok model).
Proof.
  intros P w. exists (free_model P w). apply findSuitableFreeAudioModel_run.
Qed.

(** X7. Discovery answers the first entry, in listing order, whose
    lower-cased id contains ['free'] and one of ['audio'], ['voxtral'],
    ['whisper']; the id is returned as listed, not lower-cased. *)
Theorem discovery_picks_first_match :
  forall (P : Platform) (w : World) (before after : list Model.t) (entry : Model.t),
    models_list w = Ok (Some (before ++ entry :: after)%list) ->
    forallb (fun e => negb (is_free_audio_model P e)) before = true ->
    is_free_audio_model P entry = true ->
    outcome (findSuitableFreeAudioModel P w) = Ok (Model.id entry).
Proof.
  intros P w before after entry Hlist Hbefore Hentry.
  rewrite findSuitableFreeAudioModel_run. unfold outcome; simpl.
  rewrite free_model_unfold, Hlist, filter_app, (filter_none _ _ Hbefore).
  simpl. rewrite Hentry. reflexivity.
Qed.

Lemma discovery_picks_first_match_witness :
  outcome (findSuitableFreeAudioModel Sample.platform
             (Sample.world None
                (Ok (Some [ {| Model.id := "openai/gpt-4o-audio-preview" |};
                            {| Model.id := "vendor/Voxtral-Mini:FREE" |};
                            {| Model.id := "openai/whisper:free" |} ]))
                Sample.every_model_fails))
  = Ok "vendor/Voxtral-Mini:FREE".
Proof.
  apply (discovery_picks_first_match
           Sample.platform
           (Sample.world None
              (Ok (Some [ {| Model.id := "openai/gpt-4o-audio-preview" |};
                          {| Model.id := "vendor/Voxtral-Mini:FREE" |};
                          {| Model.id := "openai/whisper:free" |} ]))
              Sample.every_model_fails)
           [ {| Model.id := "openai/gpt-4o-audio-preview" |} ]
           [ {| Model.id := "openai/whisper:free" |} ]
           {| Model.id := "vendor/Voxtral-Mini:FREE" |}); reflexivity.
Defined.

(** X8. When the listing has entries but none passes the test, discovery
    answers the configured backup, or the built-in default audio model when
    no backup is set: a model that need not be free. *)
Theorem discovery_without_match_answers_fallback :
  forall (P : Platform) (w : World) (data : list Model.t),
    models_list w = Ok (Some data) ->
    forallb (fun e => negb (is_free_audio_model P e)) data = true ->
    outcome (findSuitableFreeAudioModel P w)
    = Ok (or_else (OPENROUTER_DEFAULT_MODEL_AUDIO_BACKUP w) DEFAULT_AUDIO_MODEL).
Proof.
  intros P w data Hlist Hnone.
  rewrite findSuitableFreeAudioModel_run. unfold outcome; simpl.
  rewrite free_model_unfold, Hlist, (filter_none _ _ Hnone). reflexivity.
Qed.

Lemma discovery_without_match_answers_fallback_witness :
  outcome (findSuitableFreeAudioModel Sample.platform
             (Sample.world None
                (Ok (Some [ {| Model.id := "openai/gpt-4o-audio-preview" |};
                            {| Model.id := "meta/llama-3:free" |} ]))
                Sample.every_model_fails))
  = Ok (or_else None DEFAULT_AUDIO_MODEL).
Proof.
  apply (discovery_without_match_answers_fallback
           Sample.platform
           (Sample.world None
              (Ok (Some [ {| Model.id := "openai/gpt-4o-audio-preview" |};
                          {| Model.id := "meta/llama-3:free" |} ]))
              Sample.every_model_fails)
           [ {| Model.id := "openai/gpt-4o-audio-preview" |};
             {| Model.id := "meta/llama-3:free" |} ]); reflexivity.
Defined.

(** X9. On a platform whose [toLowerCase] maps the empty string to itself,
    discovery never answers the empty string, so the truthiness test the
    handler applies to the discovered model always passes. *)
Theorem discovery_answer_is_not_empty :
  forall (P : Platform) (w : World) (model : string),
    toLowerCase P "" = "" ->
    outcome (findSuitableFreeAudioModel P w) = Ok model ->
    model <> "".
Proof.
  intros P w model Hlower. rewrite findSuitableFreeAudioModel_run.
  unfold outcome; simpl. intros H. injection H as <-.
  rewrite free_model_unfold.
  assert (Hfallback :
            or_else (OPENROUTER_DEFAULT_MODEL_AUDIO_BACKUP w) DEFAULT_AUDIO_MODEL <> "")
    by (apply or_else_nonempty; discriminate).
  destruct (models_list w) as [[data |] | f]; try exact Hfallback.
  destruct (filter (is_free_audio_model P) data) as [| first others] eqn:Hfilter;
    [exact Hfallback |].
  assert (Hin : In first (filter (is_free_audio_model P) data))
    by (rewrite Hfilter; left; reflexivity).
  apply filter_In in Hin as [_ Hfirst].
  intros Hempty. unfold is_free_audio_model in Hfirst.
  rewrite Hempty, Hlower in Hfirst. discriminate Hfirst.
Qed.

Lemma discovery_answer_is_not_empty_witness :
  outcome (findSuitableFreeAudioModel Sample.platform
             (Sample.world None
                (Ok (Some [ {| Model.id := "openai/whisper:free" |} ]))
                Sample.every_model_fails))
  = Ok "openai/whisper:free"
  /\ "openai/whisper:free" <> "".
Proof.
  split; [reflexivity |].
  apply (discovery_answer_is_not_empty
           Sample.platform
           (Sample.world None
              (Ok (Some [ {| Model.id := "openai/whisper:free" |} ]))
              Sample.every_model_fails)
           "openai/whisper:free"); reflexivity.
Defined.

(* ===================================================================== *)
(** ** Further properties: the handler *)
(* ===================================================================== *)

Lemma attempt_outcome_Ok_inv P w model parts envelope :
  attempt_outcome P w model parts = Ok envelope ->
  exists completion,
    chat_completions_create w model parts = Ok completion
    /\ outcome (success_result P completion) = Ok envelope
    /\ (exists t, content envelope = [ {| type := "text"; text := t |} ])
    /\ isError envelope = None.
Proof.
  rewrite attempt_outcome_unfold. unfold success_result, outcome.
  destruct (chat_completions_create w model parts) as [c | f]; [| discriminate].
  destruct (Completion.choices c) eqn:Hchoices; simpl; [discriminate |].
  intros H. injection H as <-. exists c. rewrite Hchoices.
  repeat split. eexists; reflexivity.
Qed.

(** A chain that ends well ends with the envelope of a successful attempt on
    the last model it called; every model called before that one failed. *)
Lemma chain_Ok_inv P w primary parts calls envelope :
  chain P w primary parts calls (Ok envelope) ->
  exists m,
    last_attempt calls = Some (m, parts)
    /\ attempt_outcome P w m parts = Ok envelope
    /\ forall m', In m' (creates calls) -> m' <> m ->
                  exists f, attempt_outcome P w m' parts = Err f.
Proof.
  intros Hchain. inversion Hchain; subst.
  - exists primary. repeat split; auto.
    intros m' [<- | []] Hne. contradiction.
  - exists backup. repeat split; auto.
    intros m' [<- | [<- | []]] Hne; [eauto | contradiction].
  - exists (free_model P w). repeat split; auto.
    intros m' [<- | [<- | [<- | []]]] Hne; [eauto | eauto | contradiction].
  - exists (free_model P w). repeat split; auto.
    intros m' [<- | [<- | []]] Hne; [eauto | contradiction].
Qed.

(** X10. An [audio_url] that is the empty string is treated like a missing
    one: the invalid-params fault is thrown and nothing is called. *)
Theorem empty_audio_url_is_protocol_fault :
  forall (P : Platform) (w : World) (request : Request.t) (defaultModel : option string),
    Request.audio_url request = Some "" ->
    handleAnalyzeAudio P w request defaultModel
    = ([], Err (McpError InvalidParams "audio_url parameter is required")).
Proof.
  intros P w request defaultModel Hempty.
  unfold handleAnalyzeAudio. rewrite Hempty. reflexivity.
Qed.

Lemma empty_audio_url_is_protocol_fault_witness :
  handleAnalyzeAudio Sample.platform
    (Sample.world None Sample.listing_down Sample.every_model_answers)
    {| Request.audio_url := Some ""; Request.model := None |} (Some "caller/default")
  = ([], Err (McpError InvalidParams "audio_url parameter is required")).
Proof.
  apply empty_audio_url_is_protocol_fault. reflexivity.
Defined.

(** X11. The validation fault is the only thing the handler ever throws:
    with a non-empty [audio_url] it always resolves with an envelope, and
    when it rejects, it rejects with the invalid-params fault before any
    call was made. *)
Theorem handler_rejects_only_on_validation :
  forall (P : Platform) (w : World) (request : Request.t) (defaultModel : option string),
    (forall url, Request.audio_url request = Some url -> url <> "" ->
       exists envelope, outcome (handleAnalyzeAudio P w request defaultModel) = Ok envelope)
    /\ (forall e, outcome (handleAnalyzeAudio P w request defaultModel) = Err e ->
          e = McpError InvalidParams "audio_url parameter is required"
          /\ trace (handleAnalyzeAudio P w request defaultModel) = []).
Proof.
  intros P w request defaultModel.
  destruct (handleAnalyzeAudio_runs P w request defaultModel)
    as [Hnone | url ev f Hurl Hne Hev Hload | url ev buffer calls r Hurl Hne Hev Hload Hchain];
    unfold trace, outcome; simpl fst; simpl snd.
  - split.
    + intros url Hurl Hne. destruct Hnone as [H | H]; rewrite H in Hurl;
        [discriminate | injection Hurl as <-; contradiction].
    + intros e H. injection H as <-. split; reflexivity.
  - split; [eauto | discriminate].
  - split; [| destruct r; discriminate].
    intros _ _ _. destruct r; simpl; eauto.
Qed.

Lemma handler_rejects_only_on_validation_witness :
  exists envelope,
    outcome (handleAnalyzeAudio Sample.platform
               (Sample.world None Sample.listing_down Sample.every_model_fails)
               {| Request.audio_url := Some "missing.wav"; Request.model := None |} None)
    = Ok envelope.
Proof.
  apply (proj1 (handler_rejects_only_on_validation
                  Sample.platform
                  (Sample.world None Sample.listing_down Sample.every_model_fails)
                  {| Request.audio_url := Some "missing.wav"; Request.model := None |} None)
               "missing.wav").
  - reflexivity.
  - discriminate.
Defined.

(** X12. When the payload cannot be loaded, the handler stops there: the
    only call made is the loader's, no model is listed or called, and the
    result is the soft-failure envelope carrying the loader's error. *)
Theorem load_failure_is_soft_failure :
  forall (P : Platform) (w : World) (request : Request.t) (defaultModel : option string)
         (url : string) (f : failure),
    Request.audio_url request = Some url ->
    url <> "" ->
    outcome (fetchAudio P w url) = Err (Raised f) ->
    handleAnalyzeAudio P w request defaultModel
    = (trace (fetchAudio P w url),
       Ok (soft_failure P (failure_message f) (primary_model request defaultModel))).
Proof.
  intros P w request defaultModel url f Hurl Hne Hload.
  unfold handleAnalyzeAudio. rewrite Hurl.
  destruct (String.eqb_spec url ""); [contradiction |]. simpl.
  destruct (fetchAudio P w url) as [t r]. unfold outcome, trace in *. simpl in *.
  subst r. simpl. rewrite app_nil_r. destruct f; reflexivity.
Qed.

(** A URL that answers 404. *)
Lemma load_failure_is_soft_failure_witness :
  handleAnalyzeAudio Sample.platform
    (Sample.world (Some "backup/model") Sample.listing_down Sample.every_model_answers)
    {| Request.audio_url := Some "https://example.com/gone.mp3"; Request.model := None |}
    None
  = ([EvFetch "https://example.com/gone.mp3"],
     Ok (soft_failure Sample.platform "Failed to fetch audio: Not Found" DEFAULT_AUDIO_MODEL)).
Proof.
  apply (load_failure_is_soft_failure
           Sample.platform
           (Sample.world (Some "backup/model") Sample.listing_down Sample.every_model_answers)
           {| Request.audio_url := Some "https://example.com/gone.mp3"; Request.model := None |}
           None "https://example.com/gone.mp3"
           (ErrorObject "Failed to fetch audio: Not Found")).
  - reflexivity.
  - discriminate.
  - reflexivity.
Defined.

(** X13. Every envelope the handler returns has exactly one content item,
    of type ['text'], and its error mark is either absent or [true]. *)
Theorem envelope_is_well_formed :
  forall (P : Platform) (w : World) (request : Request.t) (defaultModel : option string)
         (envelope : CallToolResult),
    outcome (handleAnalyzeAudio P w request defaultModel) = Ok envelope ->
    (exists t, content envelope = [ {| type := "text"; text := t |} ])
    /\ (isError envelope = None \/ isError envelope = Some true).
Proof.
  intros P w request defaultModel envelope.
  destruct (handleAnalyzeAudio_runs P w request defaultModel)
    as [Hnone | url ev f Hurl Hne Hev Hload | url ev buffer calls r Hurl Hne Hev Hload Hchain];
    unfold outcome; simpl snd.
  - discriminate.
  - intros H. injection H as <-. split; [eexists; reflexivity | right; reflexivity].
  - destruct r as [e | f]; simpl; intros H; injection H as <-.
    + destruct (chain_Ok_inv _ _ _ _ _ _ Hchain) as (m & _ & Hm & _).
      destruct (attempt_outcome_Ok_inv _ _ _ _ _ Hm) as (_ & _ & _ & Hshape & Hmark).
      split; [exact Hshape | left; exact Hmark].
    + split; [eexists; reflexivity | right; reflexivity].
Qed.

Lemma envelope_is_well_formed_witness :
  (exists t, content (soft_failure Sample.platform "429 rate limited: backup/model" "m1")
             = [ {| type := "text"; text := t |} ])
  /\ (isError (soft_failure Sample.platform "429 rate limited: backup/model" "m1") = None
      \/ isError (soft_failure Sample.platform "429 rate limited: backup/model" "m1")
         = Some true).
Proof.
  apply (envelope_is_well_formed
           Sample.platform
           (Sample.world (Some "backup/model") Sample.listing_down Sample.every_model_fails)
           (Sample.request (Some "m1")) None).
  reflexivity.
Defined.

(** X14. A success envelope is always built from the completion of the last
    model called, and every model called before it had failed. *)
Theorem success_comes_from_last_call :
  forall (P : Platform) (w : World) (request : Request.t) (defaultModel : option string)
         (envelope : CallToolResult),
    outcome (handleAnalyzeAudio P w request defaultModel) = Ok envelope ->
    isError envelope = None ->
    exists m parts completion,
      last_attempt (trace (handleAnalyzeAudio P w request defaultModel)) = Some (m, parts)
      /\ chat_completions_create w m parts = Ok completion
      /\ outcome (success_result P completion) = Ok envelope
      /\ forall m', In m' (creates (trace (handleAnalyzeAudio P w request defaultModel))) ->
                    m' <> m -> exists f, attempt_outcome P w m' parts = Err f.
Proof.
  intros P w request defaultModel envelope.
  destruct (handleAnalyzeAudio_runs P w request defaultModel)
    as [Hnone | url ev f Hurl Hne Hev Hload | url ev buffer calls r Hurl Hne Hev Hload Hchain];
    unfold trace, outcome; simpl fst; simpl snd.
  - discriminate.
  - intros H Hmark. injection H as <-. discriminate Hmark.
  - destruct (payload_fetch_cases ev Hev) as (_ & _ & -> & -> & _).
    destruct r as [e | f]; simpl; intros H Hmark; injection H as <-;
      [| discriminate Hmark].
    destruct (chain_Ok_inv _ _ _ _ _ _ Hchain) as (m & Hlast & Hm & Hearlier).
    destruct (attempt_outcome_Ok_inv _ _ _ _ _ Hm) as (completion & Hc & Hres & _).
    exists m, (message_content P buffer url), completion. auto.
Qed.

(** The primary is rate limited, the backup answers. *)
Lemma success_comes_from_last_call_witness :
  exists m parts completion,
    last_attempt
      (trace (handleAnalyzeAudio Sample.platform
                (Sample.world (Some "backup/model") Sample.listing_down
                   (fun model parts =>
                      if model =? "backup/model"
                      then Sample.every_model_answers model parts
                      else Sample.every_model_fails model parts))
                (Sample.request (Some "m1")) None))
    = Some (m, parts)
    /\ (if m =? "backup/model"
        then Sample.every_model_answers m parts
        else Sample.every_model_fails m parts) = Ok completion.
Proof.
  destruct (success_comes_from_last_call
              Sample.platform
              (Sample.world (Some "backup/model") Sample.listing_down
                 (fun model parts =>
                    if model =? "backup/model"
                    then Sample.every_model_answers model parts
                    else Sample.every_model_fails model parts))
              (Sample.request (Some "m1")) None
              _ eq_refl eq_refl)
    as (m & parts & completion & Hlast & Hc & _).
  exists m, parts, completion. split; [exact Hlast | exact Hc].
Defined.

(** X15. Discovery is lazy: the model listing is requested only after the
    primary attempt has failed, and, when a distinct backup is configured,
    only after the backup attempt has failed too. *)
Theorem listing_only_after_explicit_failures :
  forall (P : Platform) (w : World) (request : Request.t) (defaultModel : option string),
    In EvModelsList (trace (handleAnalyzeAudio P w request defaultModel)) ->
    exists parts f,
      In (EvCreate (primary_model request defaultModel) parts)
         (trace (handleAnalyzeAudio P w request defaultModel))
      /\ attempt_outcome P w (primary_model request defaultModel) parts = Err f
      /\ forall backup,
           configured_backup w = Some backup ->
           backup <> primary_model request defaultModel ->
           exists f', attempt_outcome P w backup parts = Err f'.
Proof.
  intros P w request defaultModel.
  destruct (handleAnalyzeAudio_runs P w request defaultModel)
    as [Hnone | url ev f Hurl Hne Hev Hload | url ev buffer calls r Hurl Hne Hev Hload Hchain];
    unfold trace; simpl fst.
  - intros [].
  - destruct (payload_fetch_cases ev Hev) as (Hl & _).
    intros [-> | []]. discriminate Hl.
  - destruct (payload_fetch_cases ev Hev) as (Hl & _).
    intros [-> | Hin]; [discriminate Hl |].
    exists (message_content P buffer url).
    destruct Hchain as
      [ r Hp
      | e1 b r Hp Hb Hbp Hbo
      | e1 b e2 Hp Hb Hbp Hbo Hfe Hfp Hfb
      | e1 b e2 Hp Hb Hbp Hbo Hfr
      | e1 Hp Hb Hfe Hfp
      | e1 Hp Hb Hfr ].
    + destruct Hin as [Hin | []]; discriminate Hin.
    + destruct Hin as [Hin | [Hin | []]]; discriminate Hin.
    + exists e1. split; [right; left; reflexivity | split; [assumption |]].
      intros backup Hcb _. rewrite Hb in Hcb. injection Hcb as <-. eauto.
    + exists e1. split; [right; left; reflexivity | split; [assumption |]].
      intros backup Hcb _. rewrite Hb in Hcb. injection Hcb as <-. eauto.
    + exists e1. split; [right; left; reflexivity | split; [assumption |]].
      intros backup Hcb Hne'. destruct Hb as [Hb | Hb]; rewrite Hb in Hcb;
        [discriminate | injection Hcb as <-; contradiction].
    + exists e1. split; [right; left; reflexivity | split; [assumption |]].
      intros backup Hcb Hne'. destruct Hb as [Hb | Hb]; rewrite Hb in Hcb;
        [discriminate | injection Hcb as <-; contradiction].
Qed.

Lemma listing_only_after_explicit_failures_witness :
  exists parts f,
    In (EvCreate "m1" parts)
       (trace (handleAnalyzeAudio Sample.platform
                 (Sample.world (Some "backup/model") Sample.listing_down
                               Sample.every_model_fails)
                 (Sample.request (Some "m1")) None))
    /\ attempt_outcome Sample.platform
         (Sample.world (Some "backup/model") Sample.listing_down Sample.every_model_fails)
         "m1" parts = Err f.
Proof.
  destruct (listing_only_after_explicit_failures
              Sample.platform
              (Sample.world (Some "backup/model") Sample.listing_down
                            Sample.every_model_fails)
              (Sample.request (Some "m1")) None)
    as (parts & f & Hin & Hf & _).
  - right. right. right. left. reflexivity.
  - exists parts, f. split; [exact Hin | exact Hf].
Defined.

(** X16. When the primary attempt fails and a distinct configured backup
    answers, the backup's envelope is returned: exactly two models were
    called and the model listing was never requested. *)
Theorem backup_success_ends_the_chain :
  forall (P : Platform) (w : World) (request : Request.t) (defaultModel : option string)
         (backup : string) (parts : list content_part) (envelope : CallToolResult),
    configured_backup w = Some backup ->
    backup <> primary_model request defaultModel ->
    In (EvCreate backup parts) (trace (handleAnalyzeAudio P w request defaultModel)) ->
    attempt_outcome P w backup parts = Ok envelope ->
    outcome (handleAnalyzeAudio P w request defaultModel) = Ok envelope
    /\ creates (trace (handleAnalyzeAudio P w request defaultModel))
       = [primary_model request defaultModel; backup]
    /\ count is_listing (trace (handleAnalyzeAudio P w request defaultModel)) = 0%nat.
Proof.
  intros P w request defaultModel backup parts envelope Hcb Hbp.
  destruct (handleAnalyzeAudio_runs P w request defaultModel)
    as [Hnone | url ev f Hurl Hne Hev Hload | url ev buffer calls r Hurl Hne Hev Hload Hchain];
    unfold trace, outcome, count; simpl fst; simpl snd.
  - intros [].
  - destruct (payload_fetch_cases ev Hev) as (_ & _ & _ & _ & Hnot).
    intros [Hin | []]. destruct (Hnot _ _ Hin).
  - destruct (payload_fetch_cases ev Hev) as (Hl & _ & -> & _ & Hnot).
    intros [Hin | Hin] Hok; [destruct (Hnot _ _ Hin) |].
    rewrite (chain_content _ _ _ _ _ _ Hchain _ _ Hin) in Hok.
    simpl filter. rewrite Hl.
    destruct Hchain as
      [ r Hp
      | e1 b r Hp Hb Hbp' Hbo
      | e1 b e2 Hp Hb Hbp' Hbo Hfe Hfp Hfb
      | e1 b e2 Hp Hb Hbp' Hbo Hfr
      | e1 Hp Hb Hfe Hfp
      | e1 Hp Hb Hfr ];
      try (rewrite Hb in Hcb; injection Hcb as <-);
      try (destruct Hb as [Hb | Hb]; rewrite Hb in Hcb;
           [discriminate Hcb | injection Hcb as <-; contradiction]);
      try congruence.
    + destruct Hin as [Hin | []]. injection Hin as Hin _. congruence.
    + assert (r = envelope) by congruence. subst r. repeat split.
Qed.

Lemma backup_success_ends_the_chain_witness :
  creates (trace (handleAnalyzeAudio Sample.platform
                    (Sample.world (Some "backup/model") Sample.listing_down
                       (fun model parts =>
                          if model =? "backup/model"
                          then Sample.every_model_answers model parts
                          else Sample.every_model_fails model parts))
                    (Sample.request (Some "m1")) None))
  = ["m1"; "backup/model"].
Proof.
  edestruct (backup_success_ends_the_chain
              Sample.platform
              (Sample.world (Some "backup/model") Sample.listing_down
                 (fun model parts =>
                    if model =? "backup/model"
                    then Sample.every_model_answers model parts
                    else Sample.every_model_fails model parts))
              (Sample.request (Some "m1")) None
              "backup/model"
              (message_content Sample.platform Sample.riff_bytes "audio\clip.wav"))
    as (_ & Hcalled & _).
  - reflexivity.
  - discriminate.
  - right. right. left. reflexivity.
  - reflexivity.
  - exact Hcalled.
Defined.

(** X17. Every completion call of an invocation carries the same two-part
    message: the fixed transcription instruction, then the loaded payload in
    base64 with the format the detector gave for it and for the reference
    as written in the request. *)
Theorem completion_calls_carry_the_loaded_payload :
  forall (P : Platform) (w : World) (request : Request.t) (defaultModel : option string)
         (m : string) (parts : list content_part),
    In (EvCreate m parts) (trace (handleAnalyzeAudio P w request defaultModel)) ->
    exists url buffer,
      Request.audio_url request = Some url
      /\ outcome (fetchAudio P w url) = Ok buffer
      /\ parts = [ text_part transcription_instruction;
                   input_audio_part (toString_base64 P buffer)
                                    (detectAudioFormat P buffer url) ].
Proof.
  intros P w request defaultModel m parts.
  destruct (handleAnalyzeAudio_runs P w request defaultModel)
    as [Hnone | url ev f Hurl Hne Hev Hload | url ev buffer calls r Hurl Hne Hev Hload Hchain];
    unfold trace; simpl fst.
  - intros [].
  - destruct (payload_fetch_cases ev Hev) as (_ & _ & _ & _ & Hnot).
    intros [Hin | []]. destruct (Hnot _ _ Hin).
  - destruct (payload_fetch_cases ev Hev) as (_ & _ & _ & _ & Hnot).
    intros [Hin | Hin]; [destruct (Hnot _ _ Hin) |].
    exists url, buffer. split; [exact Hurl | split].
    + destruct (fetchAudio_run P w url) as (ev' & _ & ->).
      unfold outcome; simpl. rewrite Hload. reflexivity.
    + apply (chain_content _ _ _ _ _ _ Hchain _ _ Hin).
Qed.

Lemma completion_calls_carry_the_loaded_payload_witness :
  exists url buffer,
    Request.audio_url (Sample.request (Some "m1")) = Some url
    /\ outcome (fetchAudio Sample.platform
                  (Sample.world None Sample.listing_down Sample.every_model_fails) url)
       = Ok buffer
    /\ [ text_part transcription_instruction; input_audio_part "UklGRiQIAAA=" "wav" ]
       = [ text_part transcription_instruction;
           input_audio_part (toString_base64 Sample.platform buffer)
                            (detectAudioFormat Sample.platform buffer url) ].
Proof.
  apply (completion_calls_carry_the_loaded_payload
           Sample.platform
           (Sample.world None Sample.listing_down Sample.every_model_fails)
           (Sample.request (Some "m1")) None
           DEFAULT_AUDIO_MODEL).
  right. right. right. left. reflexivity.
Defined.

(* ===================================================================== *)
(** ** Further properties: server start-up *)
(* ===================================================================== *)

Lemma or_undefined_is_set a b :
  is_set (Startup.or_undefined a b) = is_set a || is_set b.
Proof.
  unfold Startup.or_undefined, is_set.
  destruct a as [v |]; [| reflexivity].
  destruct (v =? "") eqn:Hv; simpl; [reflexivity | now rewrite Hv].
Qed.

(** X18. The constructor throws exactly when no API key is set, neither in
    the options nor in the environment (an empty string counts as not
    set); the error is always the same [Error]. *)
Theorem constructor_requires_api_key :
  forall (env : Startup.Env) (options : option Startup.ServerOptions),
    ((exists f, Startup.constructor env options = Err f)
     <-> is_set (Startup.optional options Startup.apiKey) = false
         /\ is_set (Startup.OPENROUTER_API_KEY env) = false)
    /\ (forall f, Startup.constructor env options = Err f ->
          f = ErrorObject
                "OpenRouter API key is required. Provide it via options or OPENROUTER_API_KEY environment variable").
Proof.
  intros env options.
  pose proof (or_undefined_is_set (Startup.optional options Startup.apiKey)
                                  (Startup.OPENROUTER_API_KEY env)) as Hset.
  unfold Startup.constructor.
  destruct (Startup.or_undefined (Startup.optional options Startup.apiKey)
                                 (Startup.OPENROUTER_API_KEY env)) as [key |]; simpl in Hset.
  - destruct (key =? ""); simpl in Hset; symmetry in Hset.
    + apply orb_false_iff in Hset. split.
      * split; [intros _; exact Hset | intros _; eexists; reflexivity].
      * intros f H. injection H as <-. reflexivity.
    + split.
      * split; [intros (f & H); discriminate H |].
        intros [H1 H2]. rewrite H1, H2 in Hset. discriminate Hset.
      * intros f H. discriminate H.
  - symmetry in Hset. apply orb_false_iff in Hset. split.
    + split; [intros _; exact Hset | intros _; eexists; reflexivity].
    + intros f H. injection H as <-. reflexivity.
Qed.

(** An empty key in the options and none in the environment. *)
Lemma constructor_requires_api_key_witness :
  exists f,
    Startup.constructor
      {| Startup.OPENROUTER_API_KEY := None;
         Startup.OPENROUTER_DEFAULT_MODEL_IMG := Some "vision/model";
         Startup.OPENROUTER_DEFAULT_MODEL_IMG_BACKUP := None;
         Startup.OPENROUTER_DEFAULT_MODEL_AUDIO := Some "audio/model";
         Startup.OPENROUTER_DEFAULT_MODEL_AUDIO_BACKUP := None |}
      (Some {| Startup.apiKey := Some "";
               Startup.defaultModel := None;
               Startup.defaultAudioModel := None |})
    = Err f.
Proof.
  apply (proj2 (proj1 (constructor_requires_api_key
                         {| Startup.OPENROUTER_API_KEY := None;
                            Startup.OPENROUTER_DEFAULT_MODEL_IMG := Some "vision/model";
                            Startup.OPENROUTER_DEFAULT_MODEL_IMG_BACKUP := None;
                            Startup.OPENROUTER_DEFAULT_MODEL_AUDIO := Some "audio/model";
                            Startup.OPENROUTER_DEFAULT_MODEL_AUDIO_BACKUP := None |}
                         (Some {| Startup.apiKey := Some "";
                                  Startup.defaultModel := None;
                                  Startup.defaultAudioModel := None |})))).
  split; reflexivity.
Defined.

(** X19. When the constructor succeeds, the API key and both default models
    it hands to the tool handlers are non-empty strings. *)
Theorem constructor_arguments_are_not_empty :
  forall (env : Startup.Env) (options : option Startup.ServerOptions)
         (arguments : Startup.ToolHandlersArguments),
    Startup.constructor env options = Ok arguments ->
    Startup.handlers_apiKey arguments <> ""
    /\ Startup.handlers_defaultModel arguments <> ""
    /\ Startup.handlers_defaultAudioModel arguments <> "".
Proof.
  intros env options arguments. unfold Startup.constructor.
  destruct (Startup.or_undefined _ _) as [key |]; [| discriminate].
  destruct (String.eqb_spec key ""); [discriminate |].
  intros H. injection H as <-. simpl. split; [assumption | split].
  - repeat apply or_else_nonempty. discriminate.
  - repeat apply or_else_nonempty. discriminate.
Qed.

Lemma constructor_arguments_are_not_empty_witness :
  Startup.constructor Startup.sample_env None
  = Ok {| Startup.handlers_apiKey := "sk-from-env";
          Startup.handlers_defaultModel := Startup.DEFAULT_MODEL;
          Startup.handlers_defaultAudioModel := "backup/audio-model" |}
  /\ "sk-from-env" <> "" /\ Startup.DEFAULT_MODEL <> "" /\ "backup/audio-model" <> "".
Proof.
  split; [reflexivity |].
  apply (constructor_arguments_are_not_empty
           Startup.sample_env None
           {| Startup.handlers_apiKey := "sk-from-env";
              Startup.handlers_defaultModel := Startup.DEFAULT_MODEL;
              Startup.handlers_defaultAudioModel := "backup/audio-model" |}).
  reflexivity.
Defined.

(** X20. A configuration passed with [--config=] can set the API key and the
    default vision model, but never the default audio model: that one always
    comes from the environment (the audio default, else the audio backup) or
    is the built-in default. *)
Theorem audio_default_ignores_configuration :
  forall (env : Startup.Env) (argv : list string)
         (require : option string -> result failure Startup.ConfigData)
         (arguments : Startup.ToolHandlersArguments),
    Startup.main env argv require = Ok arguments ->
    Startup.handlers_defaultAudioModel arguments
    = or_else (Startup.OPENROUTER_DEFAULT_MODEL_AUDIO env)
        (or_else (Startup.OPENROUTER_DEFAULT_MODEL_AUDIO_BACKUP env) DEFAULT_AUDIO_MODEL).
Proof.
  intros env argv require arguments. unfold Startup.main.
  assert (Haudio : Startup.optional (Startup.mcpOptions argv require)
                                    Startup.defaultAudioModel = None).
  { unfold Startup.mcpOptions.
    destruct (2 <? List.length argv)%nat; [| reflexivity].
    destruct (find _ argv) as [configArg |]; [| reflexivity].
    destruct (require _); reflexivity. }
  unfold Startup.constructor. rewrite Haudio.
  destruct (Startup.or_undefined _ _) as [key |]; [| discriminate].
  destruct (key =? ""); [discriminate |].
  intros H. injection H as <-. reflexivity.
Qed.

Lemma audio_default_ignores_configuration_witness :
  Startup.main Startup.sample_env
    ["node"; "index.js"; "--config=/etc/openrouter.json"] Startup.sample_require
  = Ok {| Startup.handlers_apiKey := "sk-from-file";
          Startup.handlers_defaultModel := "file/vision-model";
          Startup.handlers_defaultAudioModel := "backup/audio-model" |}
  /\ "backup/audio-model"
     = or_else None (or_else (Some "backup/audio-model") DEFAULT_AUDIO_MODEL).
Proof.
  split; [reflexivity |].
  apply (audio_default_ignores_configuration
           Startup.sample_env
           ["node"; "index.js"; "--config=/etc/openrouter.json"] Startup.sample_require
           {| Startup.handlers_apiKey := "sk-from-file";
              Startup.handlers_defaultModel := "file/vision-model";
              Startup.handlers_defaultAudioModel := "backup/audio-model" |}).
  reflexivity.
Defined.

Lemma split_without_separator s :
  has_equals_sign s = false -> Startup.split "="%char s = [s].
Proof.
  induction s as [| c rest IH]; simpl; [reflexivity |].
  intros H. apply orb_false_iff in H as [Hc Hrest].
  rewrite Hc, (IH Hrest). reflexivity.
Qed.

Lemma split_at_first_separator s rest :
  has_equals_sign s = false ->
  Startup.split "="%char (s ++ String "="%char rest) = s :: Startup.split "="%char rest.
Proof.
  induction s as [| c s' IH]; simpl; [reflexivity |].
  intros H. apply orb_false_iff in H as [Hc Hrest].
  rewrite Hc, (IH Hrest). reflexivity.
Qed.

(** X21. The configuration path is the text between the first and the second
    equals sign of the argument: a path without an equals sign is taken
    whole, a path that contains one is cut short there. *)
Theorem configPath_stops_at_equals_sign :
  forall path rest : string,
    has_equals_sign path = false ->
    Startup.configPath ("--config=" ++ path) = Some path
    /\ Startup.configPath ("--config=" ++ path ++ "=" ++ rest) = Some path.
Proof.
  intros path rest Hpath. unfold Startup.configPath.
  change ("--config=" ++ path) with ("--config" ++ String "="%char path).
  change ("--config=" ++ path ++ "=" ++ rest)
    with ("--config" ++ String "="%char (path ++ String "="%char rest)).
  rewrite !(split_at_first_separator "--config") by reflexivity.
  rewrite split_without_separator by exact Hpath.
  rewrite split_at_first_separator by exact Hpath.
  split; reflexivity.
Qed.

Lemma configPath_stops_at_equals_sign_witness :
  Startup.configPath "--config=/etc/openrouter.json" = Some "/etc/openrouter.json"
  /\ Startup.configPath "--config=/etc/openrouter.json=v2/settings.json"
     = Some "/etc/openrouter.json".
Proof.
  apply (configPath_stops_at_equals_sign "/etc/openrouter.json" "v2/settings.json").
  reflexivity.
Defined.
